(** * Callable handlers of the Stream/Firebase function (index.js)

    A shallow embedding of the four callable handlers
    [generateStreamToken], [createUser], [getUserProfile] and
    [createVideoSession], together with the parts of the JavaScript
    runtime and of the two collaborators (the document store and the
    Stream directory client) that the handlers rely on.

    Handlers are written in a small state-and-exception monad: the state
    holds the document store and the trace of effects of the invocation,
    exceptions are JavaScript throws.  What the collaborators answer
    (whether a call throws, what the clocks read) is given by an
    environment, so that every handler is an executable function. *)

From Stdlib Require Import ZArith String Ascii List Lia Bool.
From stdpp Require Import base option gmap strings pretty.

Local Open Scope string_scope.
Local Open Scope Z_scope.

(** ** JavaScript values *)

Module Js.

(** The values that occur in request payloads, stored documents and
    returned objects.  [VTime] is an instant (a Firestore Timestamp in a
    document, a Date in a returned object), in epoch milliseconds. *)
Inductive Val : Type :=
  | VUndef
  | VNull
  | VBool (b : bool)
  | VNum (n : Z)
  | VStr (s : string)
  | VArr (l : list string)
  | VTime (ms : Z).

(** An object: its own properties. *)
Abbreviation Obj := (gmap string Val).

(** An object literal [{k1: v1, ...}]. *)
Definition obj (l : list (string * Val)) : Obj := list_to_map l.

(** Whether an optional value (a snapshot's data, a payload) is there. *)
Definition present {A} (o : option A) : bool :=
  match o with
  | Some _ => true
  | None => false
  end.

(** [o.k] *)
Definition prop (o : Obj) (k : string) : Val := default VUndef (o !! k).

(** [o?.k] on a possibly null or undefined [o]. *)
Definition opt_prop (o : option Obj) (k : string) : Val :=
  match o with
  | Some o' => prop o' k
  | None => VUndef
  end.

(** ToBoolean *)
Definition truthy (v : Val) : bool :=
  match v with
  | VUndef | VNull => false
  | VBool b => b
  | VNum n => negb (n =? 0)
  | VStr s => negb (String.eqb s "")
  | VArr _ | VTime _ => true
  end.

Definition typeof (v : Val) : string :=
  match v with
  | VUndef => "undefined"
  | VNull => "object"
  | VBool _ => "boolean"
  | VNum _ => "number"
  | VStr _ => "string"
  | VArr _ | VTime _ => "object"
  end.

(** [v === s] for a string [s] *)
Definition strict_eq_str (v : Val) (s : string) : bool :=
  match v with
  | VStr t => String.eqb t s
  | _ => false
  end.

(** [a || b] *)
Definition or_else (a b : Val) : Val := if truthy a then a else b.

(** White space in the sense of [String.prototype.trim], for the code
    units a character of [string] can hold (0 to 255): TAB, LF, VT, FF,
    CR, SPACE and NBSP. *)
Definition is_white (c : ascii) : bool :=
  let n := nat_of_ascii c in
  ((9 <=? n) && (n <=? 13) || (n =? 32) || (n =? 160))%nat.

Fixpoint trim_start (s : string) : string :=
  match s with
  | EmptyString => EmptyString
  | String c s' => if is_white c then trim_start s' else s
  end.

Definition trim_end (s : string) : string :=
  String.rev (trim_start (String.rev s)).

(** [s.trim()] *)
Definition trim (s : string) : string := trim_end (trim_start s).

(** [s.includes(sub)] *)
Fixpoint includes (sub s : string) : bool :=
  String.prefix sub s ||
  match s with
  | EmptyString => false
  | String _ s' => includes sub s'
  end.

(** [l.includes(x)] on an array of strings *)
Definition arr_includes (l : list string) (x : string) : bool :=
  existsb (String.eqb x) l.

(** [l.join(sep)] *)
Fixpoint join (sep : string) (l : list string) : string :=
  match l with
  | [] => ""
  | [x] => x
  | x :: l' => x +:+ sep +:+ join sep l'
  end.

(** *** [Date.prototype.toISOString] *)

(** [n] in decimal, left-padded with zeros to [w] digits. *)
Fixpoint digits (w : nat) (n : Z) : string :=
  match w with
  | O => ""
  | S w' => digits w' (n / 10) +:+ pretty (n mod 10)
  end.

(** Year, month and day of the proleptic Gregorian calendar for a day
    number counted from 1970-01-01. *)
Definition civil_from_days (d : Z) : Z * Z * Z :=
  let z := d + 719468 in
  let era := z / 146097 in
  let doe := z mod 146097 in
  let yoe := (doe - doe / 1460 + doe / 36524 - doe / 146096) / 365 in
  let doy := doe - (365 * yoe + yoe / 4 - yoe / 100) in
  let mp := (5 * doy + 2) / 153 in
  let day := doy - (153 * mp + 2) / 5 + 1 in
  let month := if mp <? 10 then mp + 3 else mp - 9 in
  let year := yoe + era * 400 + (if month <=? 2 then 1 else 0) in
  (year, month, day).

Definition iso_year (y : Z) : string :=
  if (0 <=? y) && (y <=? 9999) then digits 4 y
  else (if y <? 0 then "-" else "+") +:+ digits 6 (Z.abs y).

Definition toISOString (ms : Z) : string :=
  let day := ms / 86400000 in
  let t := ms mod 86400000 in
  let '(y, m, d) := civil_from_days day in
  iso_year y +:+ "-" +:+ digits 2 m +:+ "-" +:+ digits 2 d +:+ "T" +:+
  digits 2 (t / 3600000) +:+ ":" +:+ digits 2 (t / 60000 mod 60) +:+ ":" +:+
  digits 2 (t / 1000 mod 60) +:+ "." +:+ digits 3 (t mod 1000) +:+ "Z".

(** [`${v}`] *)
Definition to_string (v : Val) : string :=
  match v with
  | VUndef => "undefined"
  | VNull => "null"
  | VBool b => if b then "true" else "false"
  | VNum n => pretty n
  | VStr s => s
  | VArr l => join "," l
  | VTime ms => toISOString ms
  end.

End Js.


(** ** The runtime of a callable handler *)

Module Rt.
Import Js.

(** The codes of [HttpsError] that index.js uses. *)
Inductive Code : Type :=
  | Unauthenticated
  | InvalidArgument
  | PermissionDenied
  | NotFound
  | Internal.

Definition code_name (c : Code) : string :=
  match c with
  | Unauthenticated => "unauthenticated"
  | InvalidArgument => "invalid-argument"
  | PermissionDenied => "permission-denied"
  | NotFound => "not-found"
  | Internal => "internal"
  end.

#[local] Set Warnings "-register-all".

(** What a handler can throw: [new HttpsError(code, message, details)],
    or any other error ([Error]: a collaborator that fails, a
    [TypeError] of the runtime). *)
Inductive Exn : Type :=
  | HttpsError (c : Code) (msg : string) (details : option Exn)
  | Error (msg : string).

Definition exn_message (e : Exn) : string :=
  match e with
  | HttpsError _ m _ => m
  | Error m => m
  end.

Inductive Level : Type := Info | Warn | Err.

(** A field of the data handed to a write: a value, or the sentinel
    [FieldValue.serverTimestamp()], which the store replaces by its own
    clock reading. *)
Inductive Field : Type :=
  | FVal (v : Val)
  | FServerTimestamp.

Abbreviation Fields := (gmap string Field).

(** The data of a write, [{k1: f1, ...}]. *)
Definition fields (l : list (string * Field)) : Fields := list_to_map l.

(** The effects of an invocation, recorded when they are attempted. *)
Inductive Event : Type :=
  | ELog (lvl : Level) (msg : string)
  | EGet (coll : string) (id : Val)
  | ESet (coll : string) (id : Val) (data : Fields)
  | EUpdate (coll : string) (id : Val) (data : Fields)
  | EMint (user : string)
  | ERegister (id name image : Val)
  | EClock
  | ERandom.

Definition is_store (e : Event) : bool :=
  match e with
  | EGet _ _ | ESet _ _ _ | EUpdate _ _ _ => true
  | _ => false
  end.

Definition is_directory (e : Event) : bool :=
  match e with
  | EMint _ | ERegister _ _ _ => true
  | _ => false
  end.

(** What the world outside the handler answers during one invocation.
    Calls to the collaborators (store and directory) are numbered from 0
    in the order the handler makes them: [fault n] says that call [n]
    throws, [server_time n] is the store's clock at call [n].  Clock
    readings of the function's own runtime ([Date.now()], [new Date()])
    and random suffixes are numbered in the same way. *)
Record Env : Type := {
  fault : nat -> bool;
  server_time : nat -> Z;
  now : nat -> Z;
  random_suffix : nat -> string;
  call_token : string -> string
}.

(** The documents of the store, by collection and identifier. *)
Abbreviation Db := (gmap (string * string) Obj).

Record St : Type := {
  db : Db;
  trace : list Event;
  ncall : nat;
  nclock : nat;
  nrand : nat
}.

Definition start (d : Db) : St :=
  {| db := d; trace := []; ncall := 0; nclock := 0; nrand := 0 |}.

Inductive Res (A : Type) : Type :=
  | Ok (a : A)
  | Throw (e : Exn).
Arguments Ok {A} a.
Arguments Throw {A} e.

Definition M (A : Type) : Type := St -> Res A * St.

Definition ret {A} (a : A) : M A := fun s => (Ok a, s).

Definition bind {A B} (m : M A) (k : A -> M B) : M B :=
  fun s =>
    match m s with
    | (Ok a, s') => k a s'
    | (Throw e, s') => (Throw e, s')
    end.

Definition throw {A} (e : Exn) : M A := fun s => (Throw e, s).

(** [try { m } catch (error) { h error }] *)
Definition try_catch {A} (m : M A) (h : Exn -> M A) : M A :=
  fun s =>
    match m s with
    | (Ok a, s') => (Ok a, s')
    | (Throw e, s') => h e s'
    end.

#[export] Instance M_ret : MRet M := @ret.
#[export] Instance M_bind : MBind M := fun A B k m => bind m k.

Definition emit (e : Event) : M unit :=
  fun s => (Ok tt, {| db := db s; trace := trace s ++ [e];
                      ncall := ncall s; nclock := nclock s; nrand := nrand s |}).

(** A call to a collaborator: it takes the next call number, and throws
    when the environment says so. *)
Definition call (env : Env) : M nat :=
  fun s =>
    let s' := {| db := db s; trace := trace s; ncall := S (ncall s);
                 nclock := nclock s; nrand := nrand s |} in
    if fault env (ncall s) then (Throw (Error "collaborator failed"), s')
    else (Ok (ncall s), s').

Definition read_db : M Db := fun s => (Ok (db s), s).

Definition write_db (d : Db) : M unit :=
  fun s => (Ok tt, {| db := d; trace := trace s; ncall := ncall s;
                      nclock := nclock s; nrand := nrand s |}).

(** *** [logger] *)
Definition log (lvl : Level) (msg : string) : M unit := emit (ELog lvl msg).

(** *** [Date.now()], [new Date()] and [Math.random()] *)
Definition date_now (env : Env) : M Z :=
  fun s => (Ok (now env (nclock s)),
            {| db := db s; trace := trace s ++ [EClock]; ncall := ncall s;
               nclock := S (nclock s); nrand := nrand s |}).

(** [Math.random().toString(36).substring(2, 9)] *)
Definition random_base36 (env : Env) : M string :=
  fun s => (Ok (random_suffix env (nrand s)),
            {| db := db s; trace := trace s ++ [ERandom]; ncall := ncall s;
               nclock := nclock s; nrand := S (nrand s) |}).

(** *** The document store ([admin.firestore()])

    The store is a collaborator of the handlers: [get], [set] and
    [update] are given the behaviour its client documents.  A call that
    the store refuses or that does not get through (including a path the
    client rejects) is a fault of the environment; a failed write leaves
    the documents as they were. *)

(** [doc(id)] wants a string. *)
Definition doc_path (coll : string) (id : Val) : M (string * string) :=
  match id with
  | VStr s => ret (coll, s)
  | _ => throw (Error "documentPath must be a string")
  end.

(** The store fills the server timestamps of a write. *)
Definition resolve (t : Z) (data : Fields) : Obj :=
  (fun f => match f with FVal v => v | FServerTimestamp => VTime t end) <$> data.

(** [db.collection(coll).doc(id).get()]: the snapshot, [None] when the
    document does not exist ([exists] false, [data()] undefined). *)
Definition doc_get (env : Env) (coll : string) (id : Val) : M (option Obj) :=
  emit (EGet coll id) ;;
  p ← doc_path coll id;
  _ ← call env;
  d ← read_db;
  ret (d !! p).

(** [db.collection(coll).doc(id).set(fields)]: creates or replaces. *)
Definition doc_set (env : Env) (coll : string) (id : Val) (data : Fields) : M unit :=
  emit (ESet coll id data) ;;
  p ← doc_path coll id;
  n ← call env;
  d ← read_db;
  write_db (<[p := resolve (server_time env n) data]> d).

(** [db.collection(coll).doc(id).update(fields)]: overwrites the given
    fields of an existing document and keeps the others; fails when the
    document does not exist. *)
Definition doc_update (env : Env) (coll : string) (id : Val) (data : Fields) : M unit :=
  emit (EUpdate coll id data) ;;
  p ← doc_path coll id;
  n ← call env;
  d ← read_db;
  match d !! p with
  | Some old => write_db (<[p := resolve (server_time env n) data ∪ old]> d)
  | None => throw (Error "NOT_FOUND: no document to update")
  end.

(** *** The directory client ([streamClient])

    The second collaborator: what it answers is the environment's. *)

(** [streamClient.generateCallToken(userId)] *)
Definition generateCallToken (env : Env) (userId : string) : M string :=
  emit (EMint userId) ;;
  _ ← call env;
  ret (call_token env userId).

(** [streamClient.user.create({id, name, image})] *)
Definition user_create (env : Env) (id name image : Val) : M unit :=
  emit (ERegister id name image) ;;
  _ ← call env;
  ret tt.

(** *** Requests *)

Record Auth : Type := { uid : string }.

Record Request : Type := {
  auth : option Auth;
  data : option Obj
}.

End Rt.

(** ** The handlers of index.js *)

Module Handlers.
Import Js Rt.

Definition unauthenticated {A} (msg : string) : M A :=
  throw (HttpsError Unauthenticated msg None).

(** The string held by a value that [typeof] has shown to be a string. *)
Definition str_of (v : Val) : string :=
  match v with
  | VStr s => s
  | _ => ""
  end.

(** [!v || typeof v !== "string" || v.trim() === ""] *)
Definition not_nonblank_string (v : Val) : bool :=
  negb (truthy v) || negb (String.eqb (typeof v) "string")
  || String.eqb (trim (str_of v)) "".

(** [!v || typeof v !== "string" || !v.includes("@")] *)
Definition not_email (v : Val) : bool :=
  negb (truthy v) || negb (String.eqb (typeof v) "string")
  || negb (includes "@" (str_of v)).

(** The object returned with a token (index.js, 42-46): [t] is the
    reading of [Date.now()], [d] the one of [new Date()]. *)
Definition token_result (token : string) (t d : Z) : Obj :=
  obj [("token", VStr token);
       ("expiresAt", VNum (t + 24 * 60 * 60 * 1000));
       ("generated", VStr (toISOString d))].

(** [generateStreamToken] (index.js, 24-56) *)
Definition generateStreamToken (env : Env) (request : Request) : M Obj :=
  log Info "generateStreamToken function called" ;;
  match auth request with
  | None =>
      unauthenticated "User must be authenticated to generate a Stream token."
  | Some context =>
      let userId := uid context in
      try_catch
        (token ← generateCallToken env userId;
         log Info ("Stream token generated for user: " +:+ userId) ;;
         t ← date_now env;
         d ← date_now env;
         mret (token_result token t d))
        (fun error =>
           log Err "Error generating Stream token:" ;;
           throw (HttpsError Internal "Unable to generate Stream token."
                             (Some error)))
  end.

(** The two lines logged on entry (index.js, 70 and 72). *)
Definition entry_logs : list Event :=
  [ELog Info "createUser function called";
   ELog Info "createUser function called with user:"].

(** The failure of a validation (index.js, 75-78, 82-85, 89-92). *)
Definition invalid (what : string) : Exn :=
  HttpsError InvalidArgument
    ("The function must be called with a valid " +:+ what +:+ ".") None.

(** The data of the update (index.js, 101-106). *)
Definition update_data (user : Obj) : Fields :=
  fields [("displayName", FVal (prop user "displayName"));
          ("email", FVal (prop user "email"));
          ("photoURL", FVal (or_else (prop user "photoURL") VNull));
          ("updatedAt", FServerTimestamp)].

(** The data of the creation (index.js, 113-119). *)
Definition create_data (user : Obj) : Fields :=
  fields [("displayName", FVal (prop user "displayName"));
          ("email", FVal (prop user "email"));
          ("photoURL", FVal (or_else (prop user "photoURL") VNull));
          ("createdAt", FServerTimestamp);
          ("updatedAt", FServerTimestamp)].

(** The two success results (index.js, 107-110 and 133-136). *)
Definition updated_result (id : string) : Obj :=
  obj [("result", VStr ("User with UID " +:+ id +:+ " updated successfully."));
       ("updated", VBool true)].

Definition created_result (id : string) : Obj :=
  obj [("result", VStr ("User with UID " +:+ id +:+ " created successfully."));
       ("created", VBool true)].

(** [createUser] (index.js, 69-145) *)
Definition createUser (env : Env) (request : Request) : M Obj :=
  log Info "createUser function called" ;;
  log Info "createUser function called with user:" ;;
  match data request with
  | None => throw (Error "TypeError: cannot read properties of undefined")
  | Some user =>
      if not_nonblank_string (prop user "uid") then throw (invalid "uid")
      else if not_nonblank_string (prop user "displayName") then
        throw (invalid "displayName")
      else if not_email (prop user "email") then throw (invalid "email")
      else
        let id := to_string (prop user "uid") in
        try_catch
          (userDoc ← doc_get env "users_" (prop user "uid");
           match userDoc with
           | Some _ =>
               log Info ("User with UID " +:+ id +:+
                         " already exists, updating profile") ;;
               doc_update env "users_" (prop user "uid") (update_data user) ;;
               mret (updated_result id)
           | None =>
               doc_set env "users_" (prop user "uid") (create_data user) ;;
               try_catch
                 (user_create env (prop user "uid") (prop user "displayName")
                              (prop user "photoURL") ;;
                  log Info ("Stream user created for UID " +:+ id))
                 (fun streamError =>
                    log Warn ("Failed to create Stream user: " +:+
                              exn_message streamError)) ;;
               log Info "createUser function finished successfully" ;;
               mret (created_result id)
           end)
          (fun error =>
             log Err "Error creating user:" ;;
             throw (HttpsError Internal "Failed to create user." (Some error)))
  end.

(** [userData.createdAt?.toDate?.() || null] *)
Definition to_date_or_null (v : Val) : Val :=
  match v with
  | VTime ms => VTime ms
  | _ => VNull
  end.

(** The object returned for a profile (index.js, 202-208). *)
Definition profile_view (id : Val) (userData : Obj) : Obj :=
  obj [("uid", id);
       ("displayName", prop userData "displayName");
       ("email", prop userData "email");
       ("photoURL", prop userData "photoURL");
       ("createdAt", to_date_or_null (prop userData "createdAt"))].

(** [getUserProfile] (index.js, 155-217) *)
Definition getUserProfile (env : Env) (request : Request) : M Obj :=
  match auth request with
  | None => unauthenticated "User must be authenticated to access profiles."
  | Some a =>
      let requested := opt_prop (data request) "userId" in
      userId ←
        (if truthy requested && negb (strict_eq_str requested (uid a)) then
           try_catch
             (userData ← doc_get env "users_" (VStr (uid a));
              if negb (present userData)
                 || negb (strict_eq_str (opt_prop userData "role") "admin")
              then throw (HttpsError PermissionDenied
                            "Only admins can access other user profiles." None)
              else mret requested)
             (fun error =>
                log Err "Error checking admin permissions:" ;;
                throw (HttpsError PermissionDenied
                         "Failed to verify permissions." None))
         else mret (VStr (uid a)));
      try_catch
        (userDoc ← doc_get env "users_" userId;
         match userDoc with
         | None =>
             throw (HttpsError NotFound
                      ("User with ID " +:+ to_string userId +:+ " not found.")
                      None)
         | Some userData => mret (profile_view userId userData)
         end)
        (fun error =>
           log Err "Error fetching user profile:" ;;
           throw (HttpsError Internal "Failed to fetch user profile."
                             (Some error)))
  end.

(** [Array.isArray(v)] and the elements of an array. *)
Definition is_array (v : Val) : bool :=
  match v with
  | VArr _ => true
  | _ => false
  end.

Definition elements (v : Val) : list string :=
  match v with
  | VArr l => l
  | _ => []
  end.

(** [if (!participants.includes(uid)) participants.push(uid)] *)
Definition add_creator (participants : list string) (creator : string)
  : list string :=
  if negb (arr_includes participants creator) then participants ++ [creator]
  else participants.

(** The session identifier (index.js, 251): [t] is the reading of
    [Date.now()], [r] the random suffix. *)
Definition session_id (t : Z) (r : string) : string :=
  "session-" +:+ pretty t +:+ "-" +:+ r.

(** The session document (index.js, 256-261). *)
Definition session_data (creator : string) (participants : list string)
  : Fields :=
  fields [("createdBy", FVal (VStr creator));
          ("participants", FVal (VArr participants));
          ("createdAt", FServerTimestamp);
          ("status", FVal (VStr "active"))].

(** The object returned for a session (index.js, 263-267). *)
Definition session_result (sessionId : string) (c : Z)
    (participants : list string) : Obj :=
  obj [("sessionId", VStr sessionId);
       ("createdAt", VStr (toISOString c));
       ("participants", VArr participants)].

(** [createVideoSession] (index.js, 227-276) *)
Definition createVideoSession (env : Env) (request : Request) : M Obj :=
  match auth request with
  | None =>
      unauthenticated "User must be authenticated to create video sessions."
  | Some a =>
      let participants := opt_prop (data request) "participants" in
      if negb (truthy participants) || negb (is_array participants)
         || (length (elements participants) <? 1)%nat
      then throw (HttpsError InvalidArgument
                    "Must provide an array of participant user IDs." None)
      else
        let participants := add_creator (elements participants) (uid a) in
        try_catch
          (t ← date_now env;
           r ← random_base36 env;
           let sessionId := session_id t r in
           log Info ("Creating video session: " +:+ sessionId +:+
                     " with participants: " +:+ join ", " participants) ;;
           doc_set env "videoSessions" (VStr sessionId)
                   (session_data (uid a) participants) ;;
           c ← date_now env;
           mret (session_result sessionId c participants))
          (fun error =>
             log Err "Error creating video session:" ;;
             throw (HttpsError Internal "Failed to create video session."
                               (Some error)))
  end.

(** One invocation of a handler on a store: the outcome, the store
    afterwards and the effects in the order they happened. *)
Definition invoke (h : Env -> Request -> M Obj) (env : Env) (request : Request)
    (d : Db) : Res Obj * Db * list Event :=
  let '(r, s) := h env request (start d) in (r, db s, trace s).

Definition outcome (x : Res Obj * Db * list Event) : Res Obj := x.1.1.
Definition store_after (x : Res Obj * Db * list Event) : Db := x.1.2.
Definition effects (x : Res Obj * Db * list Event) : list Event := x.2.

(** The failure kind of an outcome. *)
Definition failure (r : Res Obj) : option Code :=
  match r with
  | Throw (HttpsError c _ _) => Some c
  | _ => None
  end.

End Handlers.

(** ** The vocabulary of the specification *)

Module Spec.
Import Js Rt Handlers.

(** A field that is present and is a string with something else than
    white space in it. *)
Definition nonblank_string (v : Val) : Prop :=
  ∃ s, v = VStr s ∧ trim s ≠ "".

(** A field that is missing (undefined or null) or a blank string. *)
Definition missing_or_blank (v : Val) : Prop :=
  v = VUndef ∨ v = VNull ∨ ∃ s, v = VStr s ∧ trim s = "".

(** An email that is present and contains an at sign. *)
Definition has_at (v : Val) : Prop :=
  ∃ s, v = VStr s ∧ includes "@" s = true.

(** An email that does not contain an at sign (a missing one does not). *)
Definition lacks_at (v : Val) : Prop :=
  ∀ s, v = VStr s → includes "@" s = false.

(** The input of upsertUser passes the three validations. *)
Definition passes_validation (user : Obj) : Prop :=
  nonblank_string (prop user "uid") ∧
  nonblank_string (prop user "displayName") ∧
  has_at (prop user "email").

(** The profile stored for an identifier. *)
Definition profile (d : Db) (id : string) : option Obj := d !! ("users_", id).

(** A stored profile whose role is [admin]. *)
Definition is_admin (d : Db) (id : string) : Prop :=
  ∃ p, profile d id = Some p ∧ p !! "role" = Some (VStr "admin").

(** The caller reads their own profile: no target is requested (or a
    falsy one), or the requested one is the caller's identifier. *)
Definition own_target (request : Request) (a : Auth) : Prop :=
  truthy (opt_prop (data request) "userId")
  && negb (strict_eq_str (opt_prop (data request) "userId") (uid a)) = false.

(** The outcome and the effects of a refused admin check. *)
Definition denied : Res Obj :=
  Throw (HttpsError PermissionDenied "Failed to verify permissions." None).

Definition check_trace (a : Auth) : list Event :=
  [EGet "users_" (VStr (uid a)); ELog Err "Error checking admin permissions:"].

(** The outcome of a read that finds no profile: the not-found error
    thrown inside the [try] block, as its [catch] rethrows it. *)
Definition not_found_wrapped (id : string) : Res Obj :=
  Throw (HttpsError Internal "Failed to fetch user profile."
           (Some (HttpsError NotFound ("User with ID " +:+ id +:+ " not found.")
                             None))).

(** No effect of the list touches the store or the directory. *)
Definition no_store (l : list Event) : Prop :=
  Forall (fun e => is_store e = false) l.

Definition no_directory (l : list Event) : Prop :=
  Forall (fun e => is_directory e = false) l.

End Spec.

(** ** Sample environments and requests *)

Module Sample.
Import Js Rt Handlers.

(** Collaborators that always answer; the clocks advance by one
    millisecond per reading. *)
Definition env_up : Env :=
  {| fault := fun _ => false;
     server_time := fun n => 1730620800000 + Z.of_nat n;
     now := fun n => 1730620800123 + Z.of_nat n;
     random_suffix := fun _ => "k3x9q2a";
     call_token := fun u => "jwt-for-" +:+ u |}.

(** The same, but the collaborator call number [k] throws. *)
Definition env_fail_at (k : nat) : Env :=
  {| fault := fun n => Nat.eqb n k;
     server_time := server_time env_up;
     now := now env_up;
     random_suffix := random_suffix env_up;
     call_token := call_token env_up |}.

Definition anonymous (payload : option Obj) : Request :=
  {| auth := None; data := payload |}.

Definition as_user (id : string) (payload : option Obj) : Request :=
  {| auth := Some {| uid := id |}; data := payload |}.

Definition alice : Obj :=
  obj [("uid", VStr "a"); ("displayName", VStr "Alice");
       ("email", VStr "alice@example.org")].

Definition alice_renamed : Obj :=
  obj [("uid", VStr "a"); ("displayName", VStr "Alice B.");
       ("email", VStr "ab@example.org");
       ("photoURL", VStr "https://example.org/a.png")].

(** A store holding a profile for [a], created earlier, with a role
    that is not [admin], and a profile for [b]. *)
Definition db_alice : Db :=
  <[ ("users_", "a") :=
       obj [("displayName", VStr "Alice"); ("email", VStr "alice@example.org");
            ("photoURL", VNull); ("createdAt", VTime 1700000000000);
            ("updatedAt", VTime 1700000000000); ("role", VStr "member")] ]>
  {[ ("users_", "b") :=
       obj [("displayName", VStr "Bob"); ("email", VStr "bob@example.org")] ]}.

(** A store where [a] is an administrator and [b] has a profile. *)
Definition db_admin : Db :=
  <[ ("users_", "a") := obj [("displayName", VStr "Alice"); ("role", VStr "admin")] ]>
  {[ ("users_", "b") := obj [("displayName", VStr "Bob"); ("email", VStr "bob@example.org")] ]}.

End Sample.

(** ** Start-up of the module *)

Module Startup.
Import Js Rt.

(** The process that loads index.js: its environment variables, the
    variables of the [.env] file and the Firebase apps initialised so
    far. *)
Record Process : Type := {
  environ : gmap string string;
  dotenv_file : gmap string string;
  apps : list string
}.

(** [process.env[k]] *)
Definition getenv (p : Process) (k : string) : Val :=
  match environ p !! k with
  | Some s => VStr s
  | None => VUndef
  end.

(** [dotenv.config()]: the variables of the file are added to the
    environment; a variable that is already set keeps its value. *)
Definition dotenv_config (p : Process) : Process :=
  {| environ := environ p ∪ dotenv_file p;
     dotenv_file := dotenv_file p;
     apps := apps p |}.

(** [if (admin.apps.length === 0) admin.initializeApp()] *)
Definition ensure_app (p : Process) : Process :=
  if (length (apps p) =? 0)%nat
  then {| environ := environ p; dotenv_file := dotenv_file p;
          apps := apps p ++ ["[DEFAULT]"] |}
  else p.

(** [new StreamClient(apiKey, apiSecret)] *)
Record Client : Type := { apiKey : string; apiSecret : string }.

(** The top level of index.js (lines 7 to 15). *)
Definition load (p : Process) : Res Client * Process :=
  let p := ensure_app (dotenv_config p) in
  let key := or_else (getenv p "STREAM_API_KEY") (VStr "") in
  let secret := or_else (getenv p "STREAM_API_SECRET") (VStr "") in
  if negb (truthy key) || negb (truthy secret)
  then (Throw (Error "Missing Stream API key/secret"), p)
  else (Ok {| apiKey := to_string key; apiSecret := to_string secret |}, p).

End Startup.

(** ** Frames of an invocation *)

Module Frame.
Import Js Rt Handlers.

Definition is_write (e : Event) : bool :=
  match e with
  | ESet _ _ _ | EUpdate _ _ _ => true
  | _ => false
  end.

(** A computation that leaves the documents as they are and whose
    effects all satisfy [P]. *)
Definition confined {A} (P : Event → Prop) (m : M A) : Prop :=
  ∀ s, db (m s).2 = db s ∧
       ∃ l, trace (m s).2 = (trace s ++ l)%list ∧ Forall P l.

(** Effects that neither write to the store nor call the directory. *)
Definition reads (e : Event) : Prop :=
  is_write e = false ∧ is_directory e = false.

(** Effects that do not touch the store. *)
Definition off_store (e : Event) : Prop := is_store e = false.

(** The value of the payload's [participants] is an array with at least
    one element. *)
Definition proper_participants (request : Request) : Prop :=
  ∃ l, opt_prop (data request) "participants" = VArr l ∧ l ≠ [].

(** What a caller of [createUser] gets when the store fails. *)
Definition internal_create : Res Obj :=
  Throw (HttpsError Internal "Failed to create user."
           (Some (Error "collaborator failed"))).

(** What a caller of [createVideoSession] gets for participants that
    are not an array with an element. *)
Definition invalid_participants : Res Obj :=
  Throw (HttpsError InvalidArgument
           "Must provide an array of participant user IDs." None).

(** A string without a dash. *)
Fixpoint dashless (s : string) : Prop :=
  match s with
  | EmptyString => True
  | String c s' => c ≠ "-"%char ∧ dashless s'
  end.

End Frame.

(** ** More sample data *)

Module Sample2.
Import Js Rt Handlers.

(** A process with both variables in its environment. *)
Definition configured : Startup.Process :=
  {| Startup.environ :=
       {[ "STREAM_API_KEY" := "key-1" ]} ∪ {[ "STREAM_API_SECRET" := "s3cret" ]};
     Startup.dotenv_file := ∅;
     Startup.apps := [] |}.

(** A process whose secret is set but empty, with a [.env] file that
    has one. *)
Definition empty_secret : Startup.Process :=
  {| Startup.environ :=
       {[ "STREAM_API_KEY" := "key-1" ]} ∪ {[ "STREAM_API_SECRET" := "" ]};
     Startup.dotenv_file := {[ "STREAM_API_SECRET" := "from-file" ]};
     Startup.apps := ["[DEFAULT]"] |}.

(** The same collaborators as [Sample.env_up], one second later and with
    another random suffix. *)
Definition env_later : Env :=
  {| fault := fun _ => false;
     server_time := fun n => 1730620801000 + Z.of_nat n;
     now := fun n => 1730620801123 + Z.of_nat n;
     random_suffix := fun _ => "p0w4z7m";
     call_token := call_token Sample.env_up |}.

Definition session_request : Request :=
  Sample.as_user "a" (Some (obj [("participants", VArr ["b"; "c"])])).

End Sample2.

(** ** Properties *)

(** *** The runtime functions on sample values *)

Example iso_epoch : Js.toISOString 0 = "1970-01-01T00:00:00.000Z".
Proof. vm_compute. reflexivity. Qed.

Example iso_sample : Js.toISOString 1730620800123 = "2024-11-03T08:00:00.123Z".
Proof. vm_compute. reflexivity. Qed.

Example iso_before_epoch : Js.toISOString (-1) = "1969-12-31T23:59:59.999Z".
Proof. vm_compute. reflexivity. Qed.

Example trim_sample : Js.trim "  a b	 " = "a b".
Proof. vm_compute. reflexivity. Qed.

Example iso_leap_day : Js.toISOString 1709164800000 = "2024-02-29T00:00:00.000Z".
Proof. vm_compute. reflexivity. Qed.

Example iso_five_digit_year :
  Js.toISOString 253402300800000 = "+010000-01-01T00:00:00.000Z".
Proof. vm_compute. reflexivity. Qed.

Example includes_at : Js.includes "@" "alice@example.org" = true.
Proof. reflexivity. Qed.

Example includes_no_at : Js.includes "@" "alice.example.org" = false.
Proof. reflexivity. Qed.

Example blank_uid : Handlers.not_nonblank_string (Js.VStr "   ") = true.
Proof. reflexivity. Qed.

Example numeric_uid : Handlers.not_nonblank_string (Js.VNum 7) = true.
Proof. reflexivity. Qed.

Section IsoForm.
Import Js.

Lemma pretty_digit (k : Z) : 0 ≤ k < 10 → String.length (pretty k) = 1%nat.
Proof.
  intros H.
  assert (Hk : k = 0 ∨ k = 1 ∨ k = 2 ∨ k = 3 ∨ k = 4 ∨ k = 5 ∨ k = 6 ∨
               k = 7 ∨ k = 8 ∨ k = 9) by lia.
  repeat (destruct Hk as [-> | Hk]; [reflexivity|]). now subst.
Qed.

Lemma length_append (s1 s2 : string) :
  String.length (s1 +:+ s2) = (String.length s1 + String.length s2)%nat.
Proof. induction s1 as [|c s1 IH]; [reflexivity|]. simpl. now rewrite IH. Qed.

Lemma digits_length (w : nat) (n : Z) : String.length (digits w n) = w.
Proof.
  revert n. induction w as [|w IH]; intros n; [reflexivity|].
  cbn [digits]. rewrite length_append, IH, pretty_digit.
  - lia.
  - apply Z.mod_pos_bound. lia.
Qed.

(** For the years 0000 to 9999 the ISO form has 24 characters,
    [YYYY-MM-DDTHH:mm:ss.sssZ]. *)
Lemma toISOString_length (ms : Z) :
  0 ≤ (civil_from_days (ms / 86400000)).1.1 ≤ 9999 →
  String.length (toISOString ms) = 24%nat.
Proof.
  unfold toISOString.
  destruct (civil_from_days (ms / 86400000)) as [[y m] d]. cbn [fst].
  intros Hy. unfold iso_year.
  replace ((0 <=? y) && (y <=? 9999)) with true
    by (symmetry; apply andb_true_iff; split; apply Z.leb_le; lia).
  repeat rewrite length_append. repeat rewrite digits_length.
  reflexivity.
Qed.

End IsoForm.

Section Validation.
Import Js Rt Handlers Spec.

Lemma trim_empty : trim "" = "".
Proof. reflexivity. Qed.

Lemma nonblank_not_empty s : trim s ≠ "" → s ≠ "".
Proof. intros H ->. now apply H. Qed.

Lemma includes_at_not_empty s : includes "@" s = true → s ≠ "".
Proof. intros H ->. discriminate H. Qed.

Lemma eqb_empty_false s : s ≠ "" → String.eqb s "" = false.
Proof. intros H. now apply String.eqb_neq. Qed.

(** The first two checks of [createUser] reject exactly the values that
    are not non-blank strings. *)
Lemma nonblank_string_check v :
  nonblank_string v ↔ not_nonblank_string v = false.
Proof.
  unfold nonblank_string, not_nonblank_string. split.
  - intros (s & -> & Hs). simpl.
    rewrite (eqb_empty_false s (nonblank_not_empty s Hs)).
    now rewrite (eqb_empty_false _ Hs).
  - destruct v as [| |b|n|s|l|ms]; simpl;
      try (rewrite ?orb_true_r; discriminate).
    intros H. apply orb_false_iff in H as [_ H].
    exists s. split; [reflexivity|]. now apply String.eqb_neq.
Qed.


Lemma has_at_check v : has_at v ↔ not_email v = false.
Proof.
  unfold has_at, not_email. split.
  - intros (s & -> & Hs). simpl. rewrite Hs.
    now rewrite (eqb_empty_false s (includes_at_not_empty s Hs)).
  - destruct v as [| |b|n|s|l|ms]; simpl;
      try (rewrite ?orb_true_r; discriminate).
    intros H. apply orb_false_iff in H as [_ H].
    exists s. split; [reflexivity|]. now apply negb_false_iff.
Qed.


Lemma passes_validation_checks user :
  passes_validation user →
  not_nonblank_string (prop user "uid") = false ∧
  not_nonblank_string (prop user "displayName") = false ∧
  not_email (prop user "email") = false.
Proof.
  intros (Hu & Hn & He).
  repeat split; [apply nonblank_string_check | apply nonblank_string_check
                | apply has_at_check]; assumption.
Qed.

End Validation.

(** Unfolds one invocation down to the state transformers. *)
Ltac unfold_run :=
  unfold Handlers.invoke, Handlers.outcome, Handlers.store_after,
    Handlers.effects;
  unfold Handlers.generateStreamToken, Handlers.createUser,
    Handlers.getUserProfile, Handlers.createVideoSession;
  unfold Rt.doc_get, Rt.doc_set, Rt.doc_update, Rt.doc_path,
    Rt.generateCallToken, Rt.user_create, Rt.date_now, Rt.random_base36,
    Rt.log, Rt.emit, Rt.call, Rt.read_db, Rt.write_db,
    Handlers.unauthenticated, Rt.try_catch, Rt.throw,
    mbind, Rt.M_bind, mret, Rt.M_ret, Rt.bind, Rt.ret, Rt.start.

Ltac step :=
  cbn -[Js.obj Rt.fields Rt.resolve Js.toISOString pretty Js.join
        Handlers.update_data Handlers.create_data Handlers.updated_result
        Handlers.created_result Handlers.invalid Handlers.profile_view
        Handlers.token_result Handlers.session_id Handlers.session_data
        Handlers.session_result Handlers.add_creator].

(** A literal key is none of the keys of a literal list. *)
Ltac not_listed :=
  let H := fresh in
  intros H;
  repeat (apply elem_of_cons in H; destruct H as [H | H]; [discriminate H|]);
  exact (proj1 (elem_of_nil _) H).

Section Unauthenticated.
Import Js Rt Handlers Spec.

Variables (env : Env) (request : Request) (d : Db).
Hypothesis no_identity : auth request = None.

Lemma generateStreamToken_unauthenticated :
  invoke generateStreamToken env request d =
    (Throw (HttpsError Unauthenticated
              "User must be authenticated to generate a Stream token." None),
     d, [ELog Info "generateStreamToken function called"]).
Proof. unfold_run. rewrite no_identity. reflexivity. Qed.

Lemma getUserProfile_unauthenticated :
  invoke getUserProfile env request d =
    (Throw (HttpsError Unauthenticated
              "User must be authenticated to access profiles." None),
     d, []).
Proof. unfold_run. rewrite no_identity. reflexivity. Qed.

Lemma createVideoSession_unauthenticated :
  invoke createVideoSession env request d =
    (Throw (HttpsError Unauthenticated
              "User must be authenticated to create video sessions." None),
     d, []).
Proof. unfold_run. rewrite no_identity. reflexivity. Qed.

End Unauthenticated.

Section C8.
Import Js Rt Handlers Spec.

(** C8. An invocation of issueToken, readProfile or createSession whose
    context carries no verified identity fails with Unauthenticated,
    whatever the payload is (so before any validation of it), leaves the
    store as it was and makes no call to the store or to the directory. *)
Theorem unauthenticated_before_anything
    (h : Env → Request → M Obj) (env : Env) (request : Request) (d : Db) :
  h = generateStreamToken ∨ h = getUserProfile ∨ h = createVideoSession →
  auth request = None →
  let x := invoke h env request d in
  failure (outcome x) = Some Unauthenticated ∧
  store_after x = d ∧
  no_store (effects x) ∧ no_directory (effects x).
Proof.
  intros Hh Hauth x. subst x.
  destruct Hh as [-> | [-> | ->]].
  - rewrite generateStreamToken_unauthenticated by assumption.
    repeat split; repeat constructor.
  - rewrite getUserProfile_unauthenticated by assumption.
    repeat split; constructor.
  - rewrite createVideoSession_unauthenticated by assumption.
    repeat split; constructor.
Qed.

Lemma unauthenticated_before_anything_witness :
  let request := Sample.anonymous (Some (obj [("userId", VStr "b")])) in
  let run h := invoke h Sample.env_up request Sample.db_admin in
  auth request = None ∧
  failure (outcome (run generateStreamToken)) = Some Unauthenticated ∧
  failure (outcome (run getUserProfile)) = Some Unauthenticated ∧
  failure (outcome (run createVideoSession)) = Some Unauthenticated ∧
  store_after (run getUserProfile) = Sample.db_admin.
Proof.
  intros request run.
  pose proof (fun h Hh => unauthenticated_before_anything h Sample.env_up
                            request Sample.db_admin Hh eq_refl) as H.
  split; [reflexivity|].
  split; [apply (H generateStreamToken); auto|].
  split; [apply (H getUserProfile); auto|].
  split; [apply (H createVideoSession); auto|].
  apply (H getUserProfile); auto.
Defined.

End C8.

(** ** Profile upsert: the runs of [createUser] *)

Section CreateUserRuns.
Import Js Rt Handlers Spec.

Variables (env : Env) (request : Request) (user : Obj) (d : Db).
Hypothesis payload : data request = Some user.

Lemma createUser_bad_uid :
  not_nonblank_string (prop user "uid") = true →
  invoke createUser env request d = (Throw (invalid "uid"), d, entry_logs).
Proof. intros H. unfold_run. rewrite payload, H. reflexivity. Qed.

Lemma createUser_bad_displayName :
  not_nonblank_string (prop user "uid") = false →
  not_nonblank_string (prop user "displayName") = true →
  invoke createUser env request d = (Throw (invalid "displayName"), d, entry_logs).
Proof. intros H1 H2. unfold_run. rewrite payload, H1, H2. reflexivity. Qed.

Lemma createUser_bad_email :
  not_nonblank_string (prop user "uid") = false →
  not_nonblank_string (prop user "displayName") = false →
  not_email (prop user "email") = true →
  invoke createUser env request d = (Throw (invalid "email"), d, entry_logs).
Proof. intros H1 H2 H3. unfold_run. rewrite payload, H1, H2, H3. reflexivity. Qed.

Variable id : string.
Hypothesis valid : passes_validation user.
Hypothesis uid_is : prop user "uid" = VStr id.

Ltac start_valid :=
  destruct (passes_validation_checks user valid) as (C1 & C2 & C3);
  unfold_run; rewrite payload, C1, C2, C3, uid_is; step.

Lemma createUser_update_run old :
  profile d id = Some old →
  fault env 0 = false → fault env 1 = false →
  invoke createUser env request d =
    (Ok (updated_result id),
     <[("users_", id) := resolve (server_time env 1) (update_data user) ∪ old]> d,
     (entry_logs ++
      [EGet "users_" (VStr id);
       ELog Info ("User with UID " +:+ id +:+ " already exists, updating profile");
       EUpdate "users_" (VStr id) (update_data user)])%list).
Proof.
  unfold profile. intros Hold F0 F1. start_valid.
  rewrite F0. step. rewrite Hold. step. rewrite F1. step. rewrite Hold.
  reflexivity.
Qed.

Lemma createUser_create_run :
  profile d id = None →
  fault env 0 = false → fault env 1 = false →
  invoke createUser env request d =
    (Ok (created_result id),
     <[("users_", id) := resolve (server_time env 1) (create_data user)]> d,
     (entry_logs ++
     [EGet "users_" (VStr id);
      ESet "users_" (VStr id) (create_data user);
      ERegister (VStr id) (prop user "displayName") (prop user "photoURL");
      (if fault env 2
       then ELog Warn "Failed to create Stream user: collaborator failed"
       else ELog Info ("Stream user created for UID " +:+ id));
      ELog Info "createUser function finished successfully"])%list).
Proof.
  unfold profile. intros Hnew F0 F1. start_valid.
  rewrite F0. step. rewrite Hnew. step. rewrite F1. step.
  destruct (fault env 2); reflexivity.
Qed.

(** A store that cannot be read, or a write that fails, surfaces as
    Internal and leaves the store as it was. *)
Lemma createUser_get_fails :
  fault env 0 = true →
  invoke createUser env request d =
    (Throw (HttpsError Internal "Failed to create user."
              (Some (Error "collaborator failed"))),
     d,
     (entry_logs ++ [EGet "users_" (VStr id); ELog Err "Error creating user:"])%list).
Proof. intros F0. start_valid. rewrite F0. reflexivity. Qed.

End CreateUserRuns.

Section InvalidInput.
Import Js Rt Handlers Spec.



End InvalidInput.

Section Upsert.
Import Js Rt Handlers Spec.

Lemma fields_lookup_other (l : list (string * Field)) (k : string) :
  k ∉ l.*1 → fields l !! k = None.
Proof. intros H. unfold fields. now apply not_elem_of_list_to_map_1. Qed.

(** An update keeps every field it does not name. *)
Lemma update_keeps (t : Z) (data : Fields) (old : Obj) (k : string) :
  data !! k = None → (resolve t data ∪ old) !! k = old !! k.
Proof.
  intros H. apply lookup_union_r. unfold resolve.
  now rewrite lookup_fmap, H.
Qed.

(** C5. An upsertUser call on an identifier whose profile already exists
    (with a valid input and a store that answers) returns updated=true;
    the stored profile then has the display name, the email and the
    photo URL of the input (null when the input has none) and a fresh
    update timestamp; its creation timestamp, its role and every other
    field are the ones it had, and no other document changes. *)
Theorem createUser_update_overwrites_only
    (env : Env) (request : Request) (user : Obj) (d : Db)
    (id : string) (old : Obj) :
  data request = Some user →
  passes_validation user →
  prop user "uid" = VStr id →
  profile d id = Some old →
  fault env 0 = false → fault env 1 = false →
  let x := invoke createUser env request d in
  ∃ r new,
    outcome x = Ok r ∧
    r !! "updated" = Some (VBool true) ∧
    profile (store_after x) id = Some new ∧
    new !! "displayName" = Some (prop user "displayName") ∧
    new !! "email" = Some (prop user "email") ∧
    new !! "photoURL" = Some (or_else (prop user "photoURL") VNull) ∧
    (user !! "photoURL" = None → new !! "photoURL" = Some VNull) ∧
    new !! "updatedAt" = Some (VTime (server_time env 1)) ∧
    new !! "createdAt" = old !! "createdAt" ∧
    new !! "role" = old !! "role" ∧
    (∀ k, k ∉ ["displayName"; "email"; "photoURL"; "updatedAt"] →
          new !! k = old !! k) ∧
    (∀ p, p ≠ ("users_", id) → store_after x !! p = d !! p).
Proof.
  intros Hdata Hvalid Hid Hold F0 F1 x. subst x.
  rewrite (createUser_update_run env request user d Hdata id Hvalid Hid old
             Hold F0 F1).
  unfold outcome, store_after, profile; cbn [fst snd].
  exists (updated_result id),
         (resolve (server_time env 1) (update_data user) ∪ old).
  assert (Hkeep : ∀ k, k ∉ ["displayName"; "email"; "photoURL"; "updatedAt"] →
            (resolve (server_time env 1) (update_data user) ∪ old) !! k
            = old !! k).
  { intros k Hk. apply update_keeps, fields_lookup_other. exact Hk. }
  assert (Hnew : ∀ k v, update_data user !! k = Some v →
            (resolve (server_time env 1) (update_data user) ∪ old) !! k
            = Some (match v with
                    | FVal w => w
                    | FServerTimestamp => VTime (server_time env 1)
                    end)).
  { intros k v Hk. apply lookup_union_Some_l. unfold resolve.
    now rewrite lookup_fmap, Hk. }
  split; [reflexivity|].
  split; [reflexivity|].
  split; [apply lookup_insert_eq|].
  split; [now apply (Hnew "displayName" (FVal _))|].
  split; [now apply (Hnew "email" (FVal _))|].
  split; [now apply (Hnew "photoURL" (FVal _))|].
  split.
  { intros Hno. rewrite (Hnew "photoURL" (FVal _) eq_refl).
    unfold prop. now rewrite Hno. }
  split; [now apply (Hnew "updatedAt" FServerTimestamp)|].
  split; [apply Hkeep; not_listed|].
  split; [apply Hkeep; not_listed|].
  split; [exact Hkeep|].
  intros p Hp. now apply lookup_insert_ne.
Qed.

End Upsert.

Section UpsertSamples.
Import Js Rt Handlers Spec.

Lemma alice_renamed_valid : passes_validation Sample.alice_renamed.
Proof.
  split; [|split].
  - exists "a". split; [reflexivity | discriminate].
  - exists "Alice B.". split; [reflexivity | discriminate].
  - exists "ab@example.org". split; reflexivity.
Defined.

Lemma alice_valid : passes_validation Sample.alice.
Proof.
  split; [|split].
  - exists "a". split; [reflexivity | discriminate].
  - exists "Alice". split; [reflexivity | discriminate].
  - exists "alice@example.org". split; reflexivity.
Defined.

End UpsertSamples.

Section C5_sample.
Import Js Rt Handlers Spec.

Lemma createUser_update_overwrites_only_witness :
  let request := Sample.anonymous (Some Sample.alice_renamed) in
  let x := invoke createUser Sample.env_up request Sample.db_alice in
  passes_validation Sample.alice_renamed ∧
  is_Some (profile Sample.db_alice "a") ∧
  ∃ r new,
    outcome x = Ok r ∧
    r !! "updated" = Some (VBool true) ∧
    profile (store_after x) "a" = Some new ∧
    new !! "displayName" = Some (VStr "Alice B.") ∧
    new !! "photoURL" = Some (VStr "https://example.org/a.png") ∧
    new !! "createdAt" = Some (VTime 1700000000000) ∧
    new !! "role" = Some (VStr "member").
Proof.
  intros request x.
  split; [exact alice_renamed_valid|].
  split; [eexists; reflexivity|].
  destruct (createUser_update_overwrites_only Sample.env_up request
              Sample.alice_renamed Sample.db_alice "a" _
              eq_refl alice_renamed_valid eq_refl eq_refl eq_refl eq_refl)
    as (r & new & Hr & Hu & Hp & Hn & _ & Hph & _ & _ & Hc & Hrole & _).
  exists r, new.
  split; [exact Hr|]. split; [exact Hu|]. split; [exact Hp|].
  split; [exact Hn|]. split; [exact Hph|].
  split; [exact Hc|]. exact Hrole.
Defined.

End C5_sample.

Section C2.
Import Js Rt Handlers Spec.

(** C2, as stated, fails on the update branch: an upsert that takes it
    returns its success result without any call to the directory: a valid input for an identifier
    that has a profile, with a store that answers. *)
Lemma createUser_update_skips_directory :
  let request := Sample.anonymous (Some Sample.alice_renamed) in
  let x := invoke createUser Sample.env_up request Sample.db_alice in
  passes_validation Sample.alice_renamed ∧
  outcome x = Ok (updated_result "a") ∧
  (∃ new, profile (store_after x) "a" = Some new ∧
          new !! "displayName" = Some (VStr "Alice B.")) ∧
  ¬ Exists (fun e => is_directory e = true) (effects x).
Proof.
  intros request x. subst x.
  rewrite (createUser_update_run Sample.env_up request Sample.alice_renamed
             Sample.db_alice eq_refl "a" alice_renamed_valid eq_refl _
             eq_refl eq_refl eq_refl).
  split; [exact alice_renamed_valid|].
  split; [reflexivity|].
  split.
  - eexists. split; [apply lookup_insert_eq | reflexivity].
  - unfold effects, entry_logs; cbn [snd app]. intros H.
    repeat match goal with
           | H : Exists _ (_ :: _) |- _ =>
               apply Exists_cons in H; destruct H as [H | H];
               [discriminate H|]
           end.
    now apply Exists_nil in H.
Qed.

(** C2 (amended). An upsertUser call that passes validation, finds no
    profile for the identifier and whose store write succeeds attempts to
    register the identity in the directory right after the write, and
    makes no other directory call; a call that finds a profile (the
    update branch) returns without any directory call. *)
Theorem createUser_registers_after_create
    (env : Env) (request : Request) (user : Obj) (d : Db) (id : string) :
  data request = Some user →
  passes_validation user →
  prop user "uid" = VStr id →
  fault env 0 = false → fault env 1 = false →
  let x := invoke createUser env request d in
  (profile d id = None →
   outcome x = Ok (created_result id) ∧
   profile (store_after x) id
     = Some (resolve (server_time env 1) (create_data user)) ∧
   ∃ pre post,
     effects x =
       (pre ++ [ESet "users_" (VStr id) (create_data user);
                ERegister (VStr id) (prop user "displayName")
                          (prop user "photoURL")] ++ post)%list ∧
     no_directory pre ∧ no_directory post) ∧
  (is_Some (profile d id) →
   outcome x = Ok (updated_result id) ∧ no_directory (effects x)).
Proof.
  intros Hdata Hvalid Hid F0 F1 x. subst x. split.
  - intros Hnew.
    rewrite (createUser_create_run env request user d Hdata id Hvalid Hid
               Hnew F0 F1).
    split; [reflexivity|].
    split; [apply lookup_insert_eq|].
    exists (entry_logs ++ [EGet "users_" (VStr id)])%list.
    eexists. split; [reflexivity|].
    split; repeat constructor. now destruct (fault env 2).
  - intros [old Hold].
    rewrite (createUser_update_run env request user d Hdata id Hvalid Hid
               old Hold F0 F1).
    split; [reflexivity|]. repeat constructor.
Qed.

Lemma createUser_registers_after_create_witness :
  let request := Sample.anonymous (Some Sample.alice) in
  let x := invoke createUser Sample.env_up request ∅ in
  passes_validation Sample.alice ∧
  profile ∅ "a" = None ∧
  outcome x = Ok (created_result "a") ∧
  ∃ pre post,
    effects x =
      (pre ++ [ESet "users_" (VStr "a") (create_data Sample.alice);
               ERegister (VStr "a") (VStr "Alice") VUndef] ++ post)%list ∧
    no_directory pre ∧ no_directory post.
Proof.
  intros request x.
  destruct (createUser_registers_after_create Sample.env_up request
              Sample.alice ∅ "a" eq_refl alice_valid eq_refl eq_refl eq_refl)
    as [Hcreate _].
  destruct (Hcreate eq_refl) as (Hr & _ & Heff).
  split; [exact alice_valid|]. split; [reflexivity|].
  split; [exact Hr|]. exact Heff.
Defined.

End C2.

Section C4.
Import Js Rt Handlers Spec.

(** C4. For an upsertUser call that passes validation and whose store
    read and write succeed, what the directory registration does has no
    influence on the outcome: the handler returns the same success result
    (created=true or updated=true) and leaves the same store, with the
    written profile in it, whether the registration fails or not; a
    registration that fails is logged as a warning. *)
Theorem createUser_directory_failure_swallowed
    (env env' : Env) (request : Request) (user : Obj) (d : Db) (id : string) :
  data request = Some user →
  passes_validation user →
  prop user "uid" = VStr id →
  fault env 0 = false → fault env 1 = false →
  fault env' 0 = false → fault env' 1 = false →
  server_time env' 1 = server_time env 1 →
  let x := invoke createUser env request d in
  let x' := invoke createUser env' request d in
  outcome x = outcome x' ∧
  store_after x = store_after x' ∧
  (∃ r, outcome x = Ok r ∧
        (r !! "created" = Some (VBool true) ∨
         r !! "updated" = Some (VBool true))) ∧
  is_Some (profile (store_after x) id) ∧
  (profile d id = None → fault env 2 = true →
   outcome x = Ok (created_result id) ∧
   profile (store_after x) id
     = Some (resolve (server_time env 1) (create_data user)) ∧
   ERegister (VStr id) (prop user "displayName") (prop user "photoURL")
     ∈ effects x ∧
   ELog Warn "Failed to create Stream user: collaborator failed" ∈ effects x).
Proof.
  intros Hdata Hvalid Hid F0 F1 F0' F1' Ht x x'. subst x x'.
  destruct (profile d id) as [old|] eqn:Hp.
  - rewrite !(createUser_update_run _ request user d Hdata id Hvalid Hid old)
      by assumption.
    unfold outcome, store_after, effects; cbn [fst snd]. rewrite Ht.
    split; [reflexivity|]. split; [reflexivity|].
    split; [exists (updated_result id); split; [reflexivity | now right]|].
    split; [unfold profile; rewrite lookup_insert_eq; eauto|].
    discriminate.
  - rewrite !(createUser_create_run _ request user d Hdata id Hvalid Hid)
      by assumption.
    unfold outcome, store_after, effects; cbn [fst snd]. rewrite Ht.
    split; [reflexivity|]. split; [reflexivity|].
    split; [exists (created_result id); split; [reflexivity | now left]|].
    split; [unfold profile; rewrite lookup_insert_eq; eauto|].
    intros _ F2. rewrite F2.
    split; [reflexivity|].
    split; [unfold profile; apply lookup_insert_eq|].
    unfold entry_logs. split; set_solver.
Qed.

Lemma createUser_directory_failure_swallowed_witness :
  let request := Sample.anonymous (Some Sample.alice) in
  let x := invoke createUser (Sample.env_fail_at 2) request ∅ in
  let x' := invoke createUser Sample.env_up request ∅ in
  passes_validation Sample.alice ∧
  fault (Sample.env_fail_at 2) 2 = true ∧
  outcome x = outcome x' ∧
  store_after x = store_after x' ∧
  outcome x = Ok (created_result "a") ∧
  is_Some (profile (store_after x) "a").
Proof.
  intros request x x'.
  destruct (createUser_directory_failure_swallowed (Sample.env_fail_at 2)
              Sample.env_up request Sample.alice ∅ "a" eq_refl alice_valid
              eq_refl eq_refl eq_refl eq_refl eq_refl eq_refl)
    as (H1 & H2 & _ & H4 & H5).
  destruct (H5 eq_refl eq_refl) as (H6 & _).
  split; [exact alice_valid|]. split; [reflexivity|].
  split; [exact H1|]. split; [exact H2|]. split; [exact H6|]. exact H4.
Defined.

End C4.

(** ** Profile read: the runs of [getUserProfile] *)

Section GetUserProfileRuns.
Import Js Rt Handlers Spec.

Variables (env : Env) (request : Request) (a : Auth) (d : Db).
Hypothesis identity : auth request = Some a.

Lemma role_check (p : Obj) :
  strict_eq_str (prop p "role") "admin" = true ↔
  p !! "role" = Some (VStr "admin").
Proof.
  unfold prop. destruct (p !! "role") as [[| |b|n|s|l|ms]|]; simpl;
    split; try discriminate.
  - intros H. apply String.eqb_eq in H. now subst.
  - intros [= ->]. reflexivity.
Qed.

Lemma admin_check :
  is_admin d (uid a) ↔
  negb (present (profile d (uid a)))
  || negb (strict_eq_str (opt_prop (profile d (uid a)) "role") "admin") = false.
Proof.
  unfold is_admin. destruct (profile d (uid a)) as [p|]; simpl.
  - rewrite negb_false_iff, role_check. split.
    + now intros (q & [= <-] & H).
    + intros H. now exists p.
  - split; [intros (q & [=] & _) | discriminate].
Qed.

Lemma getUserProfile_own_absent :
  own_target request a → fault env 0 = false → profile d (uid a) = None →
  invoke getUserProfile env request d =
    (not_found_wrapped (uid a), d,
     [EGet "users_" (VStr (uid a)); ELog Err "Error fetching user profile:"]).
Proof.
  unfold own_target, profile. intros Hown F0 Hp.
  unfold_run. rewrite identity, Hown. step. rewrite F0. step. rewrite Hp.
  reflexivity.
Qed.

Lemma getUserProfile_own_found p :
  own_target request a → fault env 0 = false → profile d (uid a) = Some p →
  invoke getUserProfile env request d =
    (Ok (profile_view (VStr (uid a)) p), d, [EGet "users_" (VStr (uid a))]).
Proof.
  unfold own_target, profile. intros Hown F0 Hp.
  unfold_run. rewrite identity, Hown. step. rewrite F0. step. rewrite Hp.
  reflexivity.
Qed.

Variable t : string.
Hypothesis requested : opt_prop (data request) "userId" = VStr t.
Hypothesis nonempty : t ≠ "".
Hypothesis other : t ≠ uid a.

Lemma other_target :
  truthy (VStr t) && negb (strict_eq_str (VStr t) (uid a)) = true.
Proof.
  simpl. rewrite (eqb_empty_false t nonempty).
  now rewrite (proj2 (String.eqb_neq t (uid a)) other).
Qed.

Ltac start_other :=
  unfold_run; rewrite identity, requested, other_target; step.

Lemma getUserProfile_check_fails :
  fault env 0 = true →
  invoke getUserProfile env request d = (denied, d, check_trace a).
Proof. intros F0. start_other. rewrite F0. reflexivity. Qed.

Lemma getUserProfile_not_admin :
  fault env 0 = false → ¬ is_admin d (uid a) →
  invoke getUserProfile env request d = (denied, d, check_trace a).
Proof.
  intros F0 Hno. start_other. rewrite F0. step.
  destruct (negb (present (d !! ("users_", uid a)))
            || negb (strict_eq_str (opt_prop (d !! ("users_", uid a)) "role")
                                   "admin")) eqn:Hc.
  - reflexivity.
  - exfalso. apply Hno. now apply admin_check.
Qed.

Lemma getUserProfile_admin_absent :
  fault env 0 = false → is_admin d (uid a) →
  fault env 1 = false → profile d t = None →
  invoke getUserProfile env request d =
    (not_found_wrapped t, d,
     [EGet "users_" (VStr (uid a)); EGet "users_" (VStr t);
      ELog Err "Error fetching user profile:"]).
Proof.
  intros F0 Hadm F1 Hp. apply admin_check in Hadm. unfold profile in *.
  start_other. rewrite F0. step. rewrite Hadm. step. rewrite F1. step.
  rewrite Hp. reflexivity.
Qed.

Lemma getUserProfile_admin_found p :
  fault env 0 = false → is_admin d (uid a) →
  fault env 1 = false → profile d t = Some p →
  invoke getUserProfile env request d =
    (Ok (profile_view (VStr t) p), d,
     [EGet "users_" (VStr (uid a)); EGet "users_" (VStr t)]).
Proof.
  intros F0 Hadm F1 Hp. apply admin_check in Hadm. unfold profile in *.
  start_other. rewrite F0. step. rewrite Hadm. step. rewrite F1. step.
  rewrite Hp. reflexivity.
Qed.

Lemma getUserProfile_admin_read_fails :
  fault env 0 = false → is_admin d (uid a) → fault env 1 = true →
  failure (outcome (invoke getUserProfile env request d)) = Some Internal.
Proof.
  intros F0 Hadm F1. apply admin_check in Hadm. unfold profile in *.
  start_other. rewrite F0. step. rewrite Hadm. step. rewrite F1. reflexivity.
Qed.

End GetUserProfileRuns.

Section C1.
Import Js Rt Handlers Spec.

(** Whenever the caller is allowed to read and the resolved target has
    no profile, the [not-found] error thrown inside the [try] block is
    caught by the block's own [catch] and surfaces as Internal. *)
Lemma getUserProfile_absent_is_internal
    (env : Env) (request : Request) (a : Auth) (d : Db) (t : string) :
  auth request = Some a →
  (own_target request a ∧ t = uid a ∧ fault env 0 = false) ∨
  (opt_prop (data request) "userId" = VStr t ∧ t ≠ "" ∧ t ≠ uid a ∧
   is_admin d (uid a) ∧ fault env 0 = false ∧ fault env 1 = false) →
  profile d t = None →
  outcome (invoke getUserProfile env request d) = not_found_wrapped t.
Proof.
  intros Hauth [(Hown & -> & F0) | (Hreq & Hne & Hother & Hadm & F0 & F1)] Hp.
  - now rewrite (getUserProfile_own_absent env request a d Hauth Hown F0 Hp).
  - now rewrite (getUserProfile_admin_absent env request a d Hauth t Hreq Hne
                   Hother F0 Hadm F1 Hp).
Qed.

Lemma db_admin_a_is_admin : is_admin Sample.db_admin "a".
Proof. eexists. split; reflexivity. Defined.

(** C1 (as the code behaves). A caller without a profile who reads their
    own profile, and an administrator who reads a profile that does not
    exist, both get Internal, with the NotFound error as its detail. *)
Theorem getUserProfile_absent_profile_surfaces_internal :
  let own := invoke getUserProfile Sample.env_up
               (Sample.as_user "c" None) Sample.db_admin in
  let by_admin := invoke getUserProfile Sample.env_up
               (Sample.as_user "a" (Some (obj [("userId", VStr "zed")])))
               Sample.db_admin in
  profile Sample.db_admin "c" = None ∧
  outcome own = not_found_wrapped "c" ∧
  failure (outcome own) = Some Internal ∧
  is_admin Sample.db_admin "a" ∧
  profile Sample.db_admin "zed" = None ∧
  outcome by_admin = not_found_wrapped "zed" ∧
  failure (outcome by_admin) = Some Internal.
Proof.
  intros own by_admin.
  assert (H1 : outcome own = not_found_wrapped "c").
  { apply (getUserProfile_absent_is_internal _ _ {| uid := "c" |});
      [reflexivity | left; repeat split | reflexivity]. }
  assert (H2 : outcome by_admin = not_found_wrapped "zed").
  { apply (getUserProfile_absent_is_internal _ _ {| uid := "a" |});
      [reflexivity | right | reflexivity].
    repeat split; try discriminate. exact db_admin_a_is_admin. }
  split; [reflexivity|]. split; [exact H1|].
  split; [now rewrite H1|]. split; [exact db_admin_a_is_admin|].
  split; [reflexivity|]. split; [exact H2|]. now rewrite H2.
Qed.

End C1.

Section C3.
Import Js Rt Handlers Spec.

Lemma db_alice_a_not_admin : ¬ is_admin Sample.db_alice "a".
Proof.
  intros (p & Hp & Hrole).
  assert (Hr : profile Sample.db_alice "a" ≫= (.!! "role")
               = Some (VStr "member")) by reflexivity.
  rewrite Hp in Hr. simpl in Hr. congruence.
Qed.




End C3.

(** ** Token issuance *)

Section Token.
Import Js Rt Handlers Spec.

Variables (env : Env) (request : Request) (a : Auth) (d : Db).
Hypothesis identity : auth request = Some a.

Lemma generateStreamToken_run :
  fault env 0 = false →
  invoke generateStreamToken env request d =
    (Ok (token_result (call_token env (uid a)) (now env 0) (now env 1)), d,
     [ELog Info "generateStreamToken function called";
      EMint (uid a);
      ELog Info ("Stream token generated for user: " +:+ uid a);
      EClock; EClock]).
Proof. intros F0. unfold_run. rewrite identity. step. now rewrite F0. Qed.

Lemma generateStreamToken_mint_fails :
  fault env 0 = true →
  invoke generateStreamToken env request d =
    (Throw (HttpsError Internal "Unable to generate Stream token."
              (Some (Error "collaborator failed"))), d,
     [ELog Info "generateStreamToken function called";
      EMint (uid a);
      ELog Err "Error generating Stream token:"]).
Proof. intros F0. unfold_run. rewrite identity. step. now rewrite F0. Qed.

End Token.

Section C9.
Import Js Rt Handlers Spec.

(** C9, as stated, fails on the name of the field: a successful
    issueToken call whose output has no field generatedAt:
    the instant is returned under the name generated, and it is a second
    reading of the clock. *)
Lemma generateStreamToken_no_generatedAt :
  let env := Sample.env_up in
  let x := invoke generateStreamToken env (Sample.as_user "a" None) ∅ in
  (∃ r, outcome x = Ok r ∧
        r !! "generatedAt" = None ∧
        r !! "expiresAt" = Some (VNum (1730620800123 + 86400000)) ∧
        r !! "generated" = Some (VStr "2024-11-03T08:00:00.124Z")) ∧
  ¬ (∀ r, outcome x = Ok r →
          is_Some (r !! "token") ∧
          r !! "expiresAt" = Some (VNum (now env 0 + 86400000)) ∧
          r !! "generatedAt" = Some (VStr (toISOString (now env 0)))).
Proof.
  intros env x.
  assert (Hx : outcome x
               = Ok (token_result "jwt-for-a" 1730620800123 1730620800124)).
  { subst x.
    now rewrite (generateStreamToken_run env (Sample.as_user "a" None)
                   {| uid := "a" |} ∅ eq_refl eq_refl). }
  split.
  - eexists. split; [exact Hx|]. repeat split; vm_compute; reflexivity.
  - intros Hclaim. destruct (Hclaim _ Hx) as (_ & _ & Hg).
    vm_compute in Hg. discriminate Hg.
Qed.

(** C9 (amended). An authenticated issueToken call succeeds when the
    directory mints the token, and the output of every successful call
    carries exactly the fields token, expiresAt and generated (there is
    no generatedAt): expiresAt is the reading of the clock at issuance
    plus 86,400,000 ms, generated is the ISO-8601 form of a second
    reading of the clock, taken right after; it is the issuance instant
    when the two readings coincide. *)
Theorem generateStreamToken_output
    (env : Env) (request : Request) (a : Auth) (d : Db) :
  auth request = Some a →
  let x := invoke generateStreamToken env request d in
  (fault env 0 = false → ∃ r, outcome x = Ok r) ∧
  ∀ r, outcome x = Ok r →
    (∀ k, is_Some (r !! k) ↔ k ∈ ["token"; "expiresAt"; "generated"]) ∧
    r !! "token" = Some (VStr (call_token env (uid a))) ∧
    r !! "expiresAt" = Some (VNum (now env 0 + 86400000)) ∧
    r !! "generated" = Some (VStr (toISOString (now env 1))) ∧
    (now env 1 = now env 0 →
     r !! "generated" = Some (VStr (toISOString (now env 0)))).
Proof.
  intros Hauth x. subst x. destruct (fault env 0) eqn:F0.
  - rewrite (generateStreamToken_mint_fails env request a d Hauth F0).
    split; discriminate.
  - rewrite (generateStreamToken_run env request a d Hauth F0).
    split; [eauto|]. intros r [= <-].
    split.
    { intros k. unfold token_result, obj.
      rewrite <- not_eq_None_Some, <- not_elem_of_list_to_map.
      cbn [fmap list_fmap fst].
      split; [apply dec_stable | tauto]. }
    split; [reflexivity|]. split; [reflexivity|].
    split; [reflexivity|]. intros <-. reflexivity.
Qed.

Lemma generateStreamToken_output_witness :
  let request := Sample.as_user "a" None in
  let x := invoke generateStreamToken Sample.env_up request ∅ in
  auth request = Some {| uid := "a" |} ∧
  ∃ r, outcome x = Ok r ∧
       r !! "token" = Some (VStr "jwt-for-a") ∧
       r !! "expiresAt" = Some (VNum 1730707200123) ∧
       r !! "generated" = Some (VStr "2024-11-03T08:00:00.124Z") ∧
       ¬ is_Some (r !! "generatedAt").
Proof.
  intros request x.
  destruct (generateStreamToken_output Sample.env_up request {| uid := "a" |}
              ∅ eq_refl) as [Hok Hout].
  destruct (Hok eq_refl) as [r Hr].
  destruct (Hout r Hr) as (Hkeys & Htok & Hexp & Hgen & _).
  split; [reflexivity|]. exists r.
  split; [exact Hr|]. split; [exact Htok|]. split; [exact Hexp|].
  split; [exact Hgen|].
  intros Hin%Hkeys.
  repeat (apply elem_of_cons in Hin; destruct Hin as [Hin | Hin];
          [discriminate Hin|]).
  exact (proj1 (elem_of_nil _) Hin).
Defined.

End C9.

(** ** Session creation *)

Section Session.
Import Js Rt Handlers Spec.

Lemma arr_includes_elem (l : list string) (x : string) :
  arr_includes l x = true ↔ x ∈ l.
Proof.
  unfold arr_includes. induction l as [|y l IH]; simpl.
  - split; [discriminate | intros H; now apply elem_of_nil in H].
  - rewrite orb_true_iff, IH, elem_of_cons, String.eqb_eq. tauto.
Qed.

Lemma add_creator_present (l : list string) (c : string) :
  c ∈ l → add_creator l c = l.
Proof.
  intros H. unfold add_creator.
  now rewrite (proj2 (arr_includes_elem l c) H).
Qed.

Lemma add_creator_absent (l : list string) (c : string) :
  c ∉ l → add_creator l c = (l ++ [c])%list.
Proof.
  intros H. unfold add_creator.
  destruct (arr_includes l c) eqn:E; [|reflexivity].
  now apply arr_includes_elem in E.
Qed.

Lemma add_creator_elem (l : list string) (c p : string) :
  p ∈ add_creator l c ↔ p ∈ l ∨ p = c.
Proof.
  destruct (decide (c ∈ l)) as [Hin | Hout].
  - rewrite add_creator_present by assumption.
    split; [now left | intros [H | ->]; assumption].
  - rewrite add_creator_absent by assumption.
    rewrite elem_of_app, list_elem_of_singleton. tauto.
Qed.

Lemma add_creator_NoDup (l : list string) (c : string) :
  NoDup l → NoDup (add_creator l c).
Proof.
  intros Hl. destruct (decide (c ∈ l)) as [Hin | Hout].
  - now rewrite add_creator_present.
  - rewrite add_creator_absent by assumption.
    apply NoDup_app. split; [assumption|]. split.
    + intros x Hx Hc. apply list_elem_of_singleton in Hc. now subst.
    + apply NoDup_singleton.
Qed.

Variables (env : Env) (request : Request) (a : Auth) (d : Db).
Variable l : list string.
Hypothesis identity : auth request = Some a.
Hypothesis given : opt_prop (data request) "participants" = VArr l.
Hypothesis nonempty : l ≠ [].

Ltac start_session :=
  unfold_run; rewrite identity, given;
  destruct l as [|p0 l0]; [now contradiction nonempty|]; step.

Lemma createVideoSession_run :
  fault env 0 = false →
  let sid := session_id (now env 0) (random_suffix env 0) in
  let final := add_creator l (uid a) in
  invoke createVideoSession env request d =
    (Ok (session_result sid (now env 1) final),
     <[("videoSessions", sid)
         := resolve (server_time env 0) (session_data (uid a) final)]> d,
     [EClock; ERandom;
      ELog Info ("Creating video session: " +:+ sid +:+
                 " with participants: " +:+ join ", " final);
      ESet "videoSessions" (VStr sid) (session_data (uid a) final);
      EClock]).
Proof. intros F0 sid final. start_session. now rewrite F0. Qed.

Lemma createVideoSession_write_fails :
  fault env 0 = true →
  store_after (invoke createVideoSession env request d) = d ∧
  failure (outcome (invoke createVideoSession env request d)) = Some Internal.
Proof. intros F0. start_session. now rewrite F0. Qed.

(** What a successful call returns and stores, for the participants
    [final] that the handler ends up with. *)
Lemma createVideoSession_stored_and_returned :
  fault env 0 = false →
  let x := invoke createVideoSession env request d in
  let final := add_creator l (uid a) in
  ∃ r sid doc,
    outcome x = Ok r ∧
    r !! "sessionId" = Some (VStr sid) ∧
    r !! "participants" = Some (VArr final) ∧
    store_after x !! ("videoSessions", sid) = Some doc ∧
    doc !! "participants" = Some (VArr final) ∧
    doc !! "createdBy" = Some (VStr (uid a)).
Proof.
  intros F0 x final. subst x. rewrite (createVideoSession_run F0).
  eexists _, _, _. split; [reflexivity|].
  split; [reflexivity|]. split; [reflexivity|].
  split; [apply lookup_insert_eq|]. split; reflexivity.
Qed.

End Session.

Section C7.
Import Js Rt Handlers Spec.

(** C7. For an authenticated createSession call with a non-empty
    participants array, the participants that are stored and returned
    contain the caller: they are the input when the caller is in it, and
    the input with the caller appended otherwise; so they have the
    members of the input and the caller, and no duplicate unless the
    input has one.  The call stores and returns them whenever the store
    accepts the write, and never returns anything else. *)
Theorem createVideoSession_includes_creator
    (env : Env) (request : Request) (a : Auth) (d : Db) (l : list string) :
  auth request = Some a →
  opt_prop (data request) "participants" = VArr l →
  l ≠ [] →
  let x := invoke createVideoSession env request d in
  let final := add_creator l (uid a) in
  uid a ∈ final ∧
  (uid a ∈ l → final = l) ∧
  (uid a ∉ l → final = (l ++ [uid a])%list) ∧
  (∀ p, p ∈ final ↔ p ∈ l ∨ p = uid a) ∧
  (NoDup l → NoDup final) ∧
  (fault env 0 = false →
   ∃ r sid doc,
     outcome x = Ok r ∧
     r !! "sessionId" = Some (VStr sid) ∧
     r !! "participants" = Some (VArr final) ∧
     store_after x !! ("videoSessions", sid) = Some doc ∧
     doc !! "participants" = Some (VArr final) ∧
     doc !! "createdBy" = Some (VStr (uid a))) ∧
  (∀ r, outcome x = Ok r → r !! "participants" = Some (VArr final)).
Proof.
  intros Hauth Hgiven Hne x final.
  split; [apply add_creator_elem; now right|].
  split; [apply add_creator_present|].
  split; [apply add_creator_absent|].
  split; [intros p; apply add_creator_elem|].
  split; [apply add_creator_NoDup|].
  split.
  - intros F0.
    exact (createVideoSession_stored_and_returned env request a d l Hauth
             Hgiven Hne F0).
  - intros r Hr. subst x. destruct (fault env 0) eqn:F0.
    + destruct (createVideoSession_write_fails env request a d l Hauth Hgiven
                  Hne F0) as [_ Hfail].
      rewrite Hr in Hfail. discriminate Hfail.
    + rewrite (createVideoSession_run env request a d l Hauth Hgiven Hne F0)
        in Hr.
      injection Hr as <-. reflexivity.
Qed.

Lemma createVideoSession_includes_creator_witness :
  let request := Sample.as_user "a" (Some (obj [("participants", VArr ["b"; "c"])])) in
  let x := invoke createVideoSession Sample.env_up request ∅ in
  auth request = Some {| uid := "a" |} ∧
  opt_prop (data request) "participants" = VArr ["b"; "c"] ∧
  ["b"; "c"] ≠ [] ∧
  NoDup ["b"; "c"; "a"] ∧
  ∃ r sid doc,
    outcome x = Ok r ∧
    r !! "sessionId" = Some (VStr sid) ∧
    r !! "participants" = Some (VArr ["b"; "c"; "a"]) ∧
    store_after x !! ("videoSessions", sid) = Some doc ∧
    doc !! "participants" = Some (VArr ["b"; "c"; "a"]).
Proof.
  intros request x.
  assert (Hne : ["b"; "c"] ≠ []) by discriminate.
  destruct (createVideoSession_includes_creator Sample.env_up request
              {| uid := "a" |} ∅ ["b"; "c"] eq_refl eq_refl Hne)
    as (_ & _ & _ & _ & Hnd & Hok & _).
  destruct (Hok eq_refl) as (r & sid & doc & Hr & Hs & Hp & Hd & Hdp & _).
  split; [reflexivity|]. split; [reflexivity|]. split; [exact Hne|].
  split.
  { apply Hnd. repeat constructor; not_listed. }
  exists r, sid, doc.
  split; [exact Hr|]. split; [exact Hs|]. split; [exact Hp|].
  split; [exact Hd | exact Hdp].
Defined.

End C7.

Section C10.
Import Js Rt Handlers Spec.

(** C10. For an authenticated createSession call whose participants
    array already contains the caller, the participants that are stored
    and returned are the array as it was given: nothing is removed, so
    duplicates of the input stay. *)
Theorem createVideoSession_keeps_given_array
    (env : Env) (request : Request) (a : Auth) (d : Db) (l : list string) :
  auth request = Some a →
  opt_prop (data request) "participants" = VArr l →
  uid a ∈ l →
  fault env 0 = false →
  let x := invoke createVideoSession env request d in
  ∃ r sid doc,
    outcome x = Ok r ∧
    r !! "sessionId" = Some (VStr sid) ∧
    r !! "participants" = Some (VArr l) ∧
    store_after x !! ("videoSessions", sid) = Some doc ∧
    doc !! "participants" = Some (VArr l).
Proof.
  intros Hauth Hgiven Hin F0 x.
  assert (Hne : l ≠ []) by (intros ->; now apply elem_of_nil in Hin).
  destruct (createVideoSession_stored_and_returned env request a d l Hauth
              Hgiven Hne F0) as (r & sid & doc & Hr & Hs & Hp & Hd & Hdp & _).
  rewrite (add_creator_present l (uid a) Hin) in Hp, Hdp.
  now exists r, sid, doc.
Qed.

Lemma createVideoSession_keeps_given_array_witness :
  let request := Sample.as_user "b" (Some (obj [("participants", VArr ["b"; "b"])])) in
  let x := invoke createVideoSession Sample.env_up request ∅ in
  auth request = Some {| uid := "b" |} ∧
  opt_prop (data request) "participants" = VArr ["b"; "b"] ∧
  "b" ∈ ["b"; "b"] ∧
  ¬ NoDup ["b"; "b"] ∧
  ∃ r sid doc,
    outcome x = Ok r ∧
    r !! "sessionId" = Some (VStr sid) ∧
    r !! "participants" = Some (VArr ["b"; "b"]) ∧
    store_after x !! ("videoSessions", sid) = Some doc ∧
    doc !! "participants" = Some (VArr ["b"; "b"]).
Proof.
  intros request x.
  assert (Hin : "b" ∈ ["b"; "b"]) by apply list_elem_of_here.
  split; [reflexivity|]. split; [reflexivity|]. split; [exact Hin|].
  split.
  { intros Hnd. apply NoDup_cons in Hnd as [Hnot _]. apply Hnot.
    apply list_elem_of_here. }
  exact (createVideoSession_keeps_given_array Sample.env_up request
           {| uid := "b" |} ∅ ["b"; "b"] eq_refl eq_refl Hin eq_refl).
Defined.

End C10.

(** ** Profile upsert: every path of [createUser] *)

Section CreateUserPaths.
Import Js Rt Handlers Spec.

Variables (env : Env) (request : Request) (user : Obj) (d : Db).
Hypothesis payload : data request = Some user.

(** The three checks accept exactly the inputs that pass validation. *)
Lemma passes_validation_iff :
  passes_validation user ↔
  not_nonblank_string (prop user "uid") = false ∧
  not_nonblank_string (prop user "displayName") = false ∧
  not_email (prop user "email") = false.
Proof.
  unfold passes_validation.
  now rewrite !nonblank_string_check, has_at_check.
Qed.

Lemma createUser_rejected :
  ¬ passes_validation user →
  ∃ what, invoke createUser env request d = (Throw (invalid what), d, entry_logs).
Proof.
  intros Hno.
  destruct (not_nonblank_string (prop user "uid")) eqn:Hu.
  { exists "uid". now apply (createUser_bad_uid env request user d payload). }
  destruct (not_nonblank_string (prop user "displayName")) eqn:Hn.
  { exists "displayName".
    now apply (createUser_bad_displayName env request user d payload). }
  destruct (not_email (prop user "email")) eqn:He.
  { exists "email".
    now apply (createUser_bad_email env request user d payload). }
  exfalso. apply Hno. now apply passes_validation_iff.
Qed.

Variable id : string.
Hypothesis valid : passes_validation user.
Hypothesis uid_is : prop user "uid" = VStr id.

Ltac start_valid :=
  destruct (passes_validation_checks user valid) as (C1 & C2 & C3);
  unfold_run; rewrite payload, C1, C2, C3, uid_is; step.

Lemma createUser_update_fails old :
  profile d id = Some old →
  fault env 0 = false → fault env 1 = true →
  invoke createUser env request d =
    (Frame.internal_create, d,
     (entry_logs ++
      [EGet "users_" (VStr id);
       ELog Info ("User with UID " +:+ id +:+ " already exists, updating profile");
       EUpdate "users_" (VStr id) (update_data user);
       ELog Err "Error creating user:"])%list).
Proof.
  unfold profile. intros Hold F0 F1. start_valid.
  rewrite F0. step. rewrite Hold. step. now rewrite F1.
Qed.

Lemma createUser_create_fails :
  profile d id = None →
  fault env 0 = false → fault env 1 = true →
  invoke createUser env request d =
    (Frame.internal_create, d,
     (entry_logs ++
      [EGet "users_" (VStr id);
       ESet "users_" (VStr id) (create_data user);
       ELog Err "Error creating user:"])%list).
Proof.
  unfold profile. intros Hnew F0 F1. start_valid.
  rewrite F0. step. rewrite Hnew. step. now rewrite F1.
Qed.

(** The five ways a valid call can go. *)
Lemma createUser_valid_cases :
  let x := invoke createUser env request d in
  (outcome x = Frame.internal_create ∧ store_after x = d ∧
   no_directory (effects x) ∧ (fault env 0 = true ∨ fault env 1 = true)) ∨
  (∃ old, profile d id = Some old ∧
     fault env 0 = false ∧ fault env 1 = false ∧
     outcome x = Ok (updated_result id) ∧
     store_after x
       = <[("users_", id) := resolve (server_time env 1) (update_data user) ∪ old]> d) ∨
  (profile d id = None ∧
     fault env 0 = false ∧ fault env 1 = false ∧
     outcome x = Ok (created_result id) ∧
     store_after x
       = <[("users_", id) := resolve (server_time env 1) (create_data user)]> d).
Proof.
  intros x. subst x.
  destruct (fault env 0) eqn:F0.
  { left. rewrite (createUser_get_fails env request user d payload id valid
                     uid_is F0).
    split; [reflexivity|]. split; [reflexivity|].
    split; [repeat constructor | now left]. }
  destruct (profile d id) as [old|] eqn:Hp; destruct (fault env 1) eqn:F1.
  - left. rewrite (createUser_update_fails old Hp F0 F1).
    split; [reflexivity|]. split; [reflexivity|].
    split; [repeat constructor | now right].
  - right. left. exists old.
    rewrite (createUser_update_run env request user d payload id valid uid_is
               old Hp F0 F1).
    now repeat split.
  - left. rewrite (createUser_create_fails Hp F0 F1).
    split; [reflexivity|]. split; [reflexivity|].
    split; [repeat constructor | now right].
  - right. right.
    rewrite (createUser_create_run env request user d payload id valid uid_is
               Hp F0 F1).
    now repeat split.
Qed.

End CreateUserPaths.

Section CreateUserNoPayload.
Import Js Rt Handlers Spec.

Lemma createUser_no_payload (env : Env) (request : Request) (d : Db) :
  data request = None →
  invoke createUser env request d =
    (Throw (Error "TypeError: cannot read properties of undefined"), d,
     entry_logs).
Proof. intros H. unfold_run. now rewrite H. Qed.

Lemma passes_validation_uid (user : Obj) :
  passes_validation user → ∃ id, prop user "uid" = VStr id.
Proof. intros ((id & H & _) & _). now exists id. Qed.

End CreateUserNoPayload.

Section X_createUser.
Import Js Rt Handlers Spec.

(** X1. An upsert of an identifier that has no profile (valid input,
    store answering) returns created=true and stores a profile with the
    display name, the email and the photo URL of the input (null when
    the input has none or an empty one), equal creation and update
    timestamps, and no other field; no other document changes. *)
Theorem createUser_create_profile
    (env : Env) (request : Request) (user : Obj) (d : Db) (id : string) :
  data request = Some user →
  passes_validation user →
  prop user "uid" = VStr id →
  profile d id = None →
  fault env 0 = false → fault env 1 = false →
  let x := invoke createUser env request d in
  ∃ r new,
    outcome x = Ok r ∧
    r !! "created" = Some (VBool true) ∧
    r !! "updated" = None ∧
    profile (store_after x) id = Some new ∧
    new !! "displayName" = Some (prop user "displayName") ∧
    new !! "email" = Some (prop user "email") ∧
    new !! "photoURL" = Some (or_else (prop user "photoURL") VNull) ∧
    (truthy (prop user "photoURL") = false → new !! "photoURL" = Some VNull) ∧
    new !! "createdAt" = Some (VTime (server_time env 1)) ∧
    new !! "updatedAt" = new !! "createdAt" ∧
    (∀ k, k ∉ ["displayName"; "email"; "photoURL"; "createdAt"; "updatedAt"] →
          new !! k = None) ∧
    (∀ p, p ≠ ("users_", id) → store_after x !! p = d !! p).
Proof.
  intros Hdata Hvalid Hid Hnew F0 F1 x. subst x.
  rewrite (createUser_create_run env request user d Hdata id Hvalid Hid Hnew
             F0 F1).
  unfold outcome, store_after, profile; cbn [fst snd].
  exists (created_result id), (resolve (server_time env 1) (create_data user)).
  split; [reflexivity|]. split; [reflexivity|]. split; [reflexivity|].
  split; [apply lookup_insert_eq|].
  split; [reflexivity|]. split; [reflexivity|]. split; [reflexivity|].
  split.
  { intros Hf. unfold resolve, create_data, or_else. rewrite Hf. reflexivity. }
  split; [reflexivity|]. split; [reflexivity|].
  split.
  { intros k Hk. unfold resolve, create_data. rewrite lookup_fmap.
    rewrite fields_lookup_other; [reflexivity | exact Hk]. }
  intros p Hp. now apply lookup_insert_ne.
Qed.

Lemma createUser_create_profile_witness :
  let request := Sample.anonymous (Some Sample.alice) in
  let x := invoke createUser Sample.env_up request ∅ in
  passes_validation Sample.alice ∧
  profile ∅ "a" = None ∧
  ∃ r new,
    outcome x = Ok r ∧
    r !! "created" = Some (VBool true) ∧
    profile (store_after x) "a" = Some new ∧
    new !! "displayName" = Some (VStr "Alice") ∧
    new !! "photoURL" = Some VNull ∧
    new !! "createdAt" = Some (VTime 1730620800001) ∧
    new !! "updatedAt" = Some (VTime 1730620800001) ∧
    new !! "role" = None.
Proof.
  intros request x.
  assert (Hfresh : profile ∅ "a" = None) by reflexivity.
  destruct (createUser_create_profile Sample.env_up request Sample.alice ∅ "a"
              eq_refl alice_valid eq_refl Hfresh eq_refl eq_refl)
    as (r & new & Hr & Hc & _ & Hp & Hn & _ & _ & Hph & Hca & Hua & Hk & _).
  split; [exact alice_valid|]. split; [reflexivity|].
  exists r, new.
  split; [exact Hr|]. split; [exact Hc|]. split; [exact Hp|].
  split; [exact Hn|]. split; [exact (Hph eq_refl)|].
  split; [exact Hca|]. split; [now rewrite Hua, Hca|].
  apply Hk. not_listed.
Defined.

(** X2. When the store fails during a valid upsert (the read of the
    profile, or the write that follows), the call fails with Internal
    and the generic message, with the cause as detail; the store is left
    as it was and the directory is not called. *)
Theorem createUser_store_failure_internal
    (env : Env) (request : Request) (user : Obj) (d : Db) :
  data request = Some user →
  passes_validation user →
  fault env 0 = true ∨ fault env 1 = true →
  let x := invoke createUser env request d in
  outcome x = Throw (HttpsError Internal "Failed to create user."
                       (Some (Error "collaborator failed"))) ∧
  store_after x = d ∧
  no_directory (effects x).
Proof.
  intros Hdata Hvalid Hfault x.
  destruct (passes_validation_uid user Hvalid) as [id Hid].
  destruct (createUser_valid_cases env request user d Hdata id Hvalid Hid)
    as [(Ho & Hs & Hd & _) | [(old & _ & F0 & F1 & _) | (_ & F0 & F1 & _)]].
  - now repeat split.
  - destruct Hfault; congruence.
  - destruct Hfault; congruence.
Qed.

Lemma createUser_store_failure_internal_witness :
  let request := Sample.anonymous (Some Sample.alice) in
  let x := invoke createUser (Sample.env_fail_at 1) request ∅ in
  passes_validation Sample.alice ∧
  fault (Sample.env_fail_at 1) 1 = true ∧
  failure (outcome x) = Some Internal ∧
  store_after x = ∅ ∧
  no_directory (effects x).
Proof.
  intros request x.
  destruct (createUser_store_failure_internal (Sample.env_fail_at 1) request
              Sample.alice ∅ eq_refl alice_valid (or_intror eq_refl))
    as (Ho & Hs & Hd).
  split; [exact alice_valid|]. split; [reflexivity|].
  split; [unfold x; now rewrite Ho|]. split; [exact Hs | exact Hd].
Defined.

(** X3. For a call with a payload, the failure is InvalidArgument
    exactly when the payload does not pass the three validations
    (whatever is wrong with it: a missing field, a blank one, one that
    is not a string); such a call makes no store call and leaves the
    store as it was. *)
Theorem createUser_invalid_iff
    (env : Env) (request : Request) (user : Obj) (d : Db) :
  data request = Some user →
  let x := invoke createUser env request d in
  (failure (outcome x) = Some InvalidArgument ↔ ¬ passes_validation user) ∧
  (¬ passes_validation user → store_after x = d ∧ no_store (effects x)).
Proof.
  intros Hdata x.
  assert (Hrej : ¬ passes_validation user →
                 ∃ what, x = (Throw (invalid what), d, entry_logs)).
  { intros Hno. exact (createUser_rejected env request user d Hdata Hno). }
  split.
  - split.
    + intros Hfail Hvalid.
      destruct (passes_validation_uid user Hvalid) as [id Hid].
      destruct (createUser_valid_cases env request user d Hdata id Hvalid Hid)
        as [(Ho & _) | [(old & _ & _ & _ & Ho & _) | (_ & _ & _ & Ho & _)]];
        fold x in Ho; rewrite Ho in Hfail; discriminate Hfail.
    + intros Hno. destruct (Hrej Hno) as [what ->]. reflexivity.
  - intros Hno. destruct (Hrej Hno) as [what ->].
    split; [reflexivity | repeat constructor].
Qed.

Lemma createUser_invalid_iff_witness :
  let user := obj [("uid", VNum 7); ("displayName", VStr "Alice");
                   ("email", VStr "alice@example.org")] in
  let request := Sample.anonymous (Some user) in
  let x := invoke createUser Sample.env_up request Sample.db_alice in
  data request = Some user ∧
  ¬ passes_validation user ∧
  failure (outcome x) = Some InvalidArgument ∧
  store_after x = Sample.db_alice ∧
  no_store (effects x).
Proof.
  intros user request x.
  assert (Hno : ¬ passes_validation user).
  { intros ((s & Hs & _) & _). discriminate Hs. }
  destruct (createUser_invalid_iff Sample.env_up request user Sample.db_alice
              eq_refl) as [Hiff Hrest].
  destruct (Hrest Hno) as [Hs Hn].
  split; [reflexivity|]. split; [exact Hno|].
  split; [exact (proj2 Hiff Hno)|]. split; [exact Hs | exact Hn].
Defined.

End X_createUser.

Section X_createUser_frames.
Import Js Rt Handlers Spec.

Lemma passes_validation_dec (user : Obj) :
  passes_validation user ∨ ¬ passes_validation user.
Proof.
  rewrite passes_validation_iff.
  destruct (not_nonblank_string (prop user "uid"));
    destruct (not_nonblank_string (prop user "displayName"));
    destruct (not_email (prop user "email")); intuition discriminate.
Qed.

(** Every call either leaves the store as it was, or succeeds with a
    store that differs from it in the profile of the payload's uid. *)
Lemma createUser_store_after (env : Env) (request : Request) (d : Db) :
  let x := invoke createUser env request d in
  ((∀ r, outcome x ≠ Ok r) ∧ store_after x = d ∧
   (data request = None ∨ failure (outcome x) = Some InvalidArgument
    ∨ failure (outcome x) = Some Internal)) ∨
  (∃ r id new, outcome x = Ok r ∧
     opt_prop (data request) "uid" = VStr id ∧
     store_after x = <[("users_", id) := new]> d).
Proof.
  intros x. destruct (data request) as [user|] eqn:Hdata.
  - destruct (passes_validation_dec user) as [Hvalid | Hno].
    + destruct (passes_validation_uid user Hvalid) as [id Hid].
      destruct (createUser_valid_cases env request user d Hdata id Hvalid Hid)
        as [(Ho & Hs & _) | [(old & _ & _ & _ & Ho & Hs) | (_ & _ & _ & Ho & Hs)]];
        fold x in Ho, Hs.
      * left. rewrite Ho. split; [discriminate|]. split; [exact Hs|].
        now right; right.
      * right. now exists (updated_result id), id, (resolve (server_time env 1) (update_data user) ∪ old).
      * right. now exists (created_result id), id, (resolve (server_time env 1) (create_data user)).
    + destruct (createUser_rejected env request user d Hdata Hno) as [what Hx].
      fold x in Hx. left. rewrite Hx.
      split; [discriminate|]. split; [reflexivity|]. now right; left.
  - left. unfold x. rewrite (createUser_no_payload env request d Hdata).
    split; [discriminate|]. split; [reflexivity|]. now left.
Qed.

(** X4. A call to createUser that does not succeed leaves the store as
    it was, whatever made it fail; with a payload the failure is
    InvalidArgument or Internal, and without one the handler throws a
    TypeError instead of an HttpsError. *)
Theorem createUser_failure_leaves_store
    (env : Env) (request : Request) (d : Db) :
  let x := invoke createUser env request d in
  ((∀ r, outcome x ≠ Ok r) → store_after x = d) ∧
  (is_Some (data request) →
   (∃ r, outcome x = Ok r) ∨ failure (outcome x) = Some InvalidArgument
   ∨ failure (outcome x) = Some Internal) ∧
  (data request = None →
   outcome x = Throw (Error "TypeError: cannot read properties of undefined")
   ∧ failure (outcome x) = None).
Proof.
  intros x.
  pose proof (createUser_store_after env request d) as H.
  cbv zeta in H. fold x in H.
  destruct H as [(Hno & Hs & Hkind) | (r & id & new & Hr & _)].
  - split; [intros _; exact Hs|]. split.
    + intros [user Hu]. destruct Hkind as [Hnone | [H | H]];
        [congruence | now right; left | now right; right].
    + intros Hnone. unfold x.
      now rewrite (createUser_no_payload env request d Hnone).
  - split; [intros Hno; now destruct (Hno r)|]. split.
    + intros _. left. now exists r.
    + intros Hnone. unfold x in Hr.
      rewrite (createUser_no_payload env request d Hnone) in Hr.
      discriminate Hr.
Qed.

Lemma createUser_failure_leaves_store_witness :
  let request := Sample.anonymous (Some Sample.alice_renamed) in
  let x := invoke createUser (Sample.env_fail_at 1) request Sample.db_alice in
  let y := invoke createUser Sample.env_up (Sample.anonymous None) Sample.db_alice in
  (∀ r, outcome x ≠ Ok r) ∧
  store_after x = Sample.db_alice ∧
  failure (outcome x) = Some Internal ∧
  failure (outcome y) = None ∧
  store_after y = Sample.db_alice.
Proof.
  intros request x y.
  destruct (createUser_failure_leaves_store (Sample.env_fail_at 1) request
              Sample.db_alice) as (Hx & _ & _).
  destruct (createUser_failure_leaves_store Sample.env_up
              (Sample.anonymous None) Sample.db_alice) as (Hy & _ & Hy').
  assert (Hfail : failure (outcome x) = Some Internal).
  { unfold x.
    now rewrite (createUser_update_fails (Sample.env_fail_at 1) request
                   Sample.alice_renamed Sample.db_alice eq_refl "a"
                   alice_renamed_valid eq_refl _ eq_refl eq_refl eq_refl). }
  assert (Hno : ∀ r, outcome x ≠ Ok r).
  { intros r Hr. rewrite Hr in Hfail. discriminate Hfail. }
  destruct (Hy' eq_refl) as [Hy1 Hy2].
  split; [exact Hno|]. split; [exact (Hx Hno)|]. split; [exact Hfail|].
  split; [exact Hy2|]. apply Hy. intros r Hr.
  rewrite Hy1 in Hr. discriminate Hr.
Defined.

(** X5. Whatever the call and whatever the collaborators answer,
    createUser changes no document but the profile of the payload's uid:
    the other profiles and every session are as before. *)
Theorem createUser_touches_one_document
    (env : Env) (request : Request) (d : Db) (p : string * string) :
  (∀ id, opt_prop (data request) "uid" = VStr id → p ≠ ("users_", id)) →
  store_after (invoke createUser env request d) !! p = d !! p.
Proof.
  intros Hp.
  destruct (createUser_store_after env request d)
    as [(_ & -> & _) | (r & id & new & _ & Hid & ->)]; [reflexivity|].
  apply lookup_insert_ne. intros <-. now apply (Hp id).
Qed.

Lemma createUser_touches_one_document_witness :
  let request := Sample.anonymous (Some Sample.alice_renamed) in
  let x := invoke createUser Sample.env_up request Sample.db_alice in
  store_after x !! ("users_", "b") = Sample.db_alice !! ("users_", "b") ∧
  store_after x !! ("users_", "a") ≠ Sample.db_alice !! ("users_", "a").
Proof.
  intros request x. split.
  - apply (createUser_touches_one_document Sample.env_up request
             Sample.db_alice ("users_", "b")).
    intros id Hid. injection Hid as <-. discriminate.
  - unfold x.
    rewrite (createUser_update_run Sample.env_up request Sample.alice_renamed
               Sample.db_alice eq_refl "a" alice_renamed_valid eq_refl _
               eq_refl eq_refl eq_refl).
    unfold store_after; cbn [fst snd]. rewrite lookup_insert_eq.
    intros H.
    assert (Hn : Sample.db_alice !! ("users_", "a") ≫= (.!! "displayName")
                 = Some (VStr "Alice")) by reflexivity.
    rewrite <- H in Hn. discriminate Hn.
Defined.

(** X6. Two upserts in a row for an identifier that had no profile (both
    valid, store answering): the first returns created=true, the second
    updated=true, and the profile then has the fields of the second
    input, the creation timestamp of the first call and the update
    timestamp of the second; no other document has changed. *)
Theorem createUser_create_then_update
    (env1 env2 : Env) (req1 req2 : Request) (user1 user2 : Obj)
    (d : Db) (id : string) :
  data req1 = Some user1 → data req2 = Some user2 →
  passes_validation user1 → passes_validation user2 →
  prop user1 "uid" = VStr id → prop user2 "uid" = VStr id →
  profile d id = None →
  fault env1 0 = false → fault env1 1 = false →
  fault env2 0 = false → fault env2 1 = false →
  let x1 := invoke createUser env1 req1 d in
  let x2 := invoke createUser env2 req2 (store_after x1) in
  outcome x1 = Ok (created_result id) ∧
  outcome x2 = Ok (updated_result id) ∧
  ∃ p, profile (store_after x2) id = Some p ∧
       p !! "displayName" = Some (prop user2 "displayName") ∧
       p !! "email" = Some (prop user2 "email") ∧
       p !! "photoURL" = Some (or_else (prop user2 "photoURL") VNull) ∧
       p !! "createdAt" = Some (VTime (server_time env1 1)) ∧
       p !! "updatedAt" = Some (VTime (server_time env2 1)) ∧
       ∀ q, q ≠ ("users_", id) → store_after x2 !! q = d !! q.
Proof.
  intros Hd1 Hd2 Hv1 Hv2 Hi1 Hi2 Hnew F0 F1 G0 G1 x1 x2. subst x2 x1.
  rewrite (createUser_create_run env1 req1 user1 d Hd1 id Hv1 Hi1 Hnew F0 F1).
  unfold store_after at 1 2 3; cbn [fst snd].
  set (first := resolve (server_time env1 1) (create_data user1)).
  assert (Hfirst : profile (<[("users_", id) := first]> d) id = Some first)
    by apply lookup_insert_eq.
  pose proof (createUser_update_run env2 req2 user2 _ Hd2 id Hv2 Hi2 first
                Hfirst G0 G1) as Hsecond.
  rewrite Hsecond.
  unfold outcome, store_after, profile; cbn [fst snd].
  split; [reflexivity|]. split; [reflexivity|].
  eexists. split; [apply lookup_insert_eq|].
  split; [reflexivity|]. split; [reflexivity|]. split; [reflexivity|].
  split; [reflexivity|]. split; [reflexivity|].
  intros q Hq. rewrite Hsecond; cbn [fst snd].
  now rewrite !lookup_insert_ne by (intros <-; now apply Hq).
Qed.

Lemma createUser_create_then_update_witness :
  let req1 := Sample.anonymous (Some Sample.alice) in
  let req2 := Sample.anonymous (Some Sample.alice_renamed) in
  let x1 := invoke createUser Sample.env_up req1 ∅ in
  let x2 := invoke createUser Sample2.env_later req2 (store_after x1) in
  passes_validation Sample.alice ∧ passes_validation Sample.alice_renamed ∧
  outcome x1 = Ok (created_result "a") ∧
  outcome x2 = Ok (updated_result "a") ∧
  ∃ p, profile (store_after x2) "a" = Some p ∧
       p !! "displayName" = Some (VStr "Alice B.") ∧
       p !! "createdAt" = Some (VTime 1730620800001) ∧
       p !! "updatedAt" = Some (VTime 1730620801001).
Proof.
  intros req1 req2 x1 x2.
  assert (Hfresh : profile ∅ "a" = None) by reflexivity.
  destruct (createUser_create_then_update Sample.env_up Sample2.env_later
              req1 req2 Sample.alice Sample.alice_renamed ∅ "a"
              eq_refl eq_refl alice_valid alice_renamed_valid eq_refl eq_refl
              Hfresh eq_refl eq_refl eq_refl eq_refl)
    as (H1 & H2 & p & Hp & Hn & _ & _ & Hc & Hu & _).
  split; [exact alice_valid|]. split; [exact alice_renamed_valid|].
  split; [exact H1|]. split; [exact H2|].
  exists p. split; [exact Hp|]. split; [exact Hn|].
  split; [exact Hc | exact Hu].
Defined.

End X_createUser_frames.

(** ** Computations that only read *)

Section Confinement.
Import Js Rt Handlers Spec Frame.

Context {A B : Type} (P : Event → Prop).

Lemma confined_ret (a : A) : confined P (mret a : M A).
Proof. intros s. split; [reflexivity|]. exists []. now rewrite app_nil_r. Qed.

Lemma confined_throw (e : Exn) : confined P (throw e : M A).
Proof. intros s. split; [reflexivity|]. exists []. now rewrite app_nil_r. Qed.

Lemma confined_bind (m : M A) (k : A → M B) :
  confined P m → (∀ a, confined P (k a)) → confined P (m ≫= k).
Proof.
  intros Hm Hk s. unfold mbind, M_bind, bind.
  destruct (Hm s) as (Hdb & l & Htr & Hl).
  destruct (m s) as [[a|e] s1]; cbn [snd] in *.
  - destruct (Hk a s1) as (Hdb' & l' & Htr' & Hl').
    split; [congruence|]. exists (l ++ l')%list.
    split; [now rewrite Htr', Htr, app_assoc | now apply Forall_app].
  - split; [exact Hdb|]. now exists l.
Qed.

Lemma confined_try_catch (m : M A) (h : Exn → M A) :
  confined P m → (∀ e, confined P (h e)) → confined P (try_catch m h).
Proof.
  intros Hm Hh s. unfold try_catch.
  destruct (Hm s) as (Hdb & l & Htr & Hl).
  destruct (m s) as [[a|e] s1]; cbn [snd] in *.
  - split; [exact Hdb|]. now exists l.
  - destruct (Hh e s1) as (Hdb' & l' & Htr' & Hl').
    split; [congruence|]. exists (l ++ l')%list.
    split; [now rewrite Htr', Htr, app_assoc | now apply Forall_app].
Qed.

End Confinement.

Section ConfinedOperations.
Import Js Rt Handlers Spec Frame.

Variable P : Event → Prop.
Variable env : Env.

Lemma confined_emit (e : Event) : P e → confined P (emit e).
Proof.
  intros He s. split; [reflexivity|]. exists [e].
  split; [reflexivity | now constructor].
Qed.

Lemma confined_log (lvl : Level) (msg : string) :
  P (ELog lvl msg) → confined P (log lvl msg).
Proof. apply confined_emit. Qed.

Lemma confined_call : confined P (call env).
Proof.
  intros s. unfold call. destruct (fault env (ncall s)); cbn [snd];
    (split; [reflexivity|]; exists []; now rewrite app_nil_r).
Qed.

Lemma confined_read_db : confined P read_db.
Proof. intros s. split; [reflexivity|]. exists []. now rewrite app_nil_r. Qed.

Lemma confined_date_now : P EClock → confined P (date_now env).
Proof.
  intros He s. split; [reflexivity|]. exists [EClock].
  split; [reflexivity | now constructor].
Qed.

Lemma confined_doc_get (coll : string) (id : Val) :
  P (EGet coll id) → confined P (doc_get env coll id).
Proof.
  intros He. unfold doc_get.
  apply confined_bind; [now apply confined_emit | intros _].
  apply confined_bind.
  { unfold doc_path. destruct id; first [apply confined_ret | apply confined_throw]. }
  intros p. apply confined_bind; [apply confined_call | intros _].
  apply confined_bind; [apply confined_read_db | intros d].
  apply (confined_ret P).
Qed.

Lemma confined_generateCallToken (u : string) :
  P (EMint u) → confined P (generateCallToken env u).
Proof.
  intros He. unfold generateCallToken.
  apply confined_bind; [now apply confined_emit | intros _].
  apply confined_bind; [apply confined_call | intros _].
  apply (confined_ret P).
Qed.

End ConfinedOperations.

Section ConfinedHandlers.
Import Js Rt Handlers Spec Frame.

Lemma reads_log lvl msg : reads (ELog lvl msg).
Proof. now split. Qed.

Lemma reads_get coll id : reads (EGet coll id).
Proof. now split. Qed.

Lemma getUserProfile_confined (env : Env) (request : Request) :
  confined reads (getUserProfile env request).
Proof.
  unfold getUserProfile, unauthenticated.
  destruct (auth request) as [a|]; [|apply confined_throw].
  apply confined_bind.
  - destruct (truthy _ && _); [|apply (confined_ret reads)].
    apply confined_try_catch.
    + apply confined_bind; [apply confined_doc_get, reads_get | intros u].
      destruct (negb _ || _); [apply confined_throw | apply (confined_ret reads)].
    + intros e. apply confined_bind; [apply confined_log, reads_log | intros _].
      apply confined_throw.
  - intros userId. apply confined_try_catch.
    + apply confined_bind; [apply confined_doc_get, reads_get | intros u].
      destruct u; [apply (confined_ret reads) | apply confined_throw].
    + intros e. apply confined_bind; [apply confined_log, reads_log | intros _].
      apply confined_throw.
Qed.

Lemma generateStreamToken_confined (env : Env) (request : Request) :
  confined off_store (generateStreamToken env request).
Proof.
  unfold generateStreamToken, unauthenticated.
  apply confined_bind; [now apply confined_log | intros _].
  destruct (auth request) as [a|]; [|apply confined_throw].
  apply confined_try_catch.
  - apply confined_bind; [now apply confined_generateCallToken | intros tok].
    apply confined_bind; [now apply confined_log | intros _].
    apply confined_bind; [now apply confined_date_now | intros t].
    apply confined_bind; [now apply confined_date_now | intros t'].
    apply (confined_ret off_store).
  - intros e. apply confined_bind; [now apply confined_log | intros _].
    apply confined_throw.
Qed.

Lemma invoke_confined (P : Event → Prop) (h : Env → Request → M Obj)
    (env : Env) (request : Request) (d : Db) :
  confined P (h env request) →
  store_after (invoke h env request d) = d ∧
  Forall P (effects (invoke h env request d)).
Proof.
  intros Hc. destruct (Hc (start d)) as (Hdb & l & Htr & Hl).
  unfold invoke, store_after, effects.
  destruct (h env request (start d)) as [r s]; cbn [fst snd] in *.
  split; [exact Hdb|]. now rewrite Htr.
Qed.

(** X7. Whatever the request and whatever the collaborators answer,
    getUserProfile leaves the store as it was: it never writes to it and
    never calls the directory. *)
Theorem getUserProfile_read_only
    (env : Env) (request : Request) (d : Db) :
  let x := invoke getUserProfile env request d in
  store_after x = d ∧
  Forall (fun e => is_write e = false ∧ is_directory e = false) (effects x).
Proof.
  intros x.
  exact (invoke_confined reads getUserProfile env request d
           (getUserProfile_confined env request)).
Qed.

End ConfinedHandlers.

Section X_getUserProfile.
Import Js Rt Handlers Spec Frame.

Lemma profile_view_keys (id : Val) (p : Obj) (k : string) :
  is_Some (profile_view id p !! k) ↔
  k ∈ ["uid"; "displayName"; "email"; "photoURL"; "createdAt"].
Proof.
  unfold profile_view, obj.
  rewrite <- not_eq_None_Some, <- not_elem_of_list_to_map.
  cbn [fmap list_fmap fst]. split; [apply dec_stable | tauto].
Qed.

Lemma getUserProfile_own_read_fails
    (env : Env) (request : Request) (a : Auth) (d : Db) :
  auth request = Some a → own_target request a → fault env 0 = true →
  failure (outcome (invoke getUserProfile env request d)) = Some Internal.
Proof.
  unfold own_target. intros Hauth Hown F0.
  unfold_run. rewrite Hauth, Hown. step. now rewrite F0.
Qed.

(** A requested target that is not a string never leads to a profile. *)
Lemma getUserProfile_nonstring_target
    (env : Env) (request : Request) (a : Auth) (d : Db) :
  auth request = Some a →
  truthy (opt_prop (data request) "userId") = true →
  (∀ t, opt_prop (data request) "userId" ≠ VStr t) →
  ∀ r, outcome (invoke getUserProfile env request d) ≠ Ok r.
Proof.
  intros Hauth Htruthy Hns r. unfold_run. rewrite Hauth.
  destruct (opt_prop (data request) "userId") as [| |b|n|s|l|ms] eqn:Hv;
    try discriminate Htruthy; try (now destruct (Hns s));
    rewrite Htruthy; step;
    destruct (fault env 0); step; try discriminate;
    destruct (negb (present (d !! ("users_", uid a))) || _); step;
    discriminate.
Qed.

(** X8. A caller whose profile exists reads it whatever its role is
    (no target, an empty one or the caller's own identifier in the
    payload): the result has the caller's identifier and the stored
    display name, email and photo URL; its creation timestamp is the
    stored one when that is a timestamp and null otherwise; it has no
    other field, so neither the role nor the update timestamp. *)
Theorem getUserProfile_own_profile
    (env : Env) (request : Request) (a : Auth) (d : Db) (p : Obj) :
  auth request = Some a →
  own_target request a →
  profile d (uid a) = Some p →
  fault env 0 = false →
  let x := invoke getUserProfile env request d in
  ∃ r, outcome x = Ok r ∧
       r !! "uid" = Some (VStr (uid a)) ∧
       r !! "displayName" = Some (prop p "displayName") ∧
       r !! "email" = Some (prop p "email") ∧
       r !! "photoURL" = Some (prop p "photoURL") ∧
       (∀ ms, p !! "createdAt" = Some (VTime ms) →
              r !! "createdAt" = Some (VTime ms)) ∧
       ((∀ ms, p !! "createdAt" ≠ Some (VTime ms)) →
        r !! "createdAt" = Some VNull) ∧
       (∀ k, is_Some (r !! k) ↔
             k ∈ ["uid"; "displayName"; "email"; "photoURL"; "createdAt"]) ∧
       r !! "role" = None ∧ r !! "updatedAt" = None.
Proof.
  intros Hauth Hown Hp F0 x. subst x.
  rewrite (getUserProfile_own_found env request a d Hauth p Hown F0 Hp).
  exists (profile_view (VStr (uid a)) p).
  split; [reflexivity|]. split; [reflexivity|]. split; [reflexivity|].
  split; [reflexivity|]. split; [reflexivity|].
  split.
  { intros ms Hms. unfold profile_view, prop. rewrite Hms. reflexivity. }
  split.
  { intros Hnone. unfold profile_view, prop.
    destruct (p !! "createdAt") as [[| |b|n|s|l|ms]|] eqn:Hc; try reflexivity.
    now destruct (Hnone ms). }
  split; [intros k; apply profile_view_keys|].
  split; reflexivity.
Qed.

Lemma getUserProfile_own_profile_witness :
  let request := Sample.as_user "a" None in
  let x := invoke getUserProfile Sample.env_up request Sample.db_alice in
  auth request = Some {| uid := "a" |} ∧
  own_target request {| uid := "a" |} ∧
  ¬ is_admin Sample.db_alice "a" ∧
  ∃ r, outcome x = Ok r ∧
       r !! "uid" = Some (VStr "a") ∧
       r !! "displayName" = Some (VStr "Alice") ∧
       r !! "createdAt" = Some (VTime 1700000000000) ∧
       r !! "role" = None.
Proof.
  intros request x.
  destruct (getUserProfile_own_profile Sample.env_up request {| uid := "a" |}
              Sample.db_alice _ eq_refl eq_refl eq_refl eq_refl)
    as (r & Hr & Hu & Hn & _ & _ & Hc & _ & _ & Hrole & _).
  split; [reflexivity|]. split; [reflexivity|].
  split; [exact db_alice_a_not_admin|].
  exists r. split; [exact Hr|]. split; [exact Hu|]. split; [exact Hn|].
  split; [exact (Hc 1700000000000 eq_refl) | exact Hrole].
Defined.

(** X9. An administrator who asks for another identifier that has a
    profile gets that profile, under the target's identifier, after two
    reads of the store (the caller's profile, then the target's). *)
Theorem getUserProfile_admin_reads_other
    (env : Env) (request : Request) (a : Auth) (d : Db) (t : string) (p : Obj) :
  auth request = Some a →
  opt_prop (data request) "userId" = VStr t →
  t ≠ "" → t ≠ uid a →
  is_admin d (uid a) →
  profile d t = Some p →
  fault env 0 = false → fault env 1 = false →
  let x := invoke getUserProfile env request d in
  outcome x = Ok (profile_view (VStr t) p) ∧
  profile_view (VStr t) p !! "uid" = Some (VStr t) ∧
  profile_view (VStr t) p !! "displayName" = Some (prop p "displayName") ∧
  profile_view (VStr t) p !! "email" = Some (prop p "email") ∧
  effects x = [EGet "users_" (VStr (uid a)); EGet "users_" (VStr t)].
Proof.
  intros Hauth Hreq Hne Hother Hadm Hp F0 F1 x. subst x.
  rewrite (getUserProfile_admin_found env request a d Hauth t Hreq Hne Hother
             p F0 Hadm F1 Hp).
  now repeat split.
Qed.

Lemma getUserProfile_admin_reads_other_witness :
  let request := Sample.as_user "a" (Some (obj [("userId", VStr "b")])) in
  let x := invoke getUserProfile Sample.env_up request Sample.db_admin in
  is_admin Sample.db_admin "a" ∧
  ∃ r, outcome x = Ok r ∧
       r !! "uid" = Some (VStr "b") ∧
       r !! "displayName" = Some (VStr "Bob") ∧
       r !! "createdAt" = Some VNull.
Proof.
  intros request x.
  assert (Hb : "b" ≠ "") by discriminate.
  assert (Hba : "b" ≠ "a") by discriminate.
  destruct (getUserProfile_admin_reads_other Sample.env_up request
              {| uid := "a" |} Sample.db_admin "b" _ eq_refl eq_refl Hb Hba
              db_admin_a_is_admin eq_refl eq_refl eq_refl)
    as (Hr & Hu & Hn & _).
  split; [exact db_admin_a_is_admin|].
  eexists. split; [exact Hr|]. split; [exact Hu|].
  split; [exact Hn | reflexivity].
Defined.

Lemma is_admin_dec (d : Db) (a : Auth) :
  is_admin d (uid a) ∨ ¬ is_admin d (uid a).
Proof.
  rewrite (admin_check a d).
  destruct (negb _ || _); [right; discriminate | now left].
Qed.

(** X10. Every profile that getUserProfile returns is a stored one that
    the caller may read: the caller's own, or, for a caller whose stored
    profile has role admin, the one of the requested identifier. *)
Theorem getUserProfile_success_sound
    (env : Env) (request : Request) (d : Db) (r : Obj) :
  outcome (invoke getUserProfile env request d) = Ok r →
  ∃ a id p,
    auth request = Some a ∧
    profile d id = Some p ∧
    r = profile_view (VStr id) p ∧
    (id = uid a ∨
     (opt_prop (data request) "userId" = VStr id ∧ is_admin d (uid a))).
Proof.
  intros Hr.
  destruct (auth request) as [a|] eqn:Hauth.
  2:{ rewrite (getUserProfile_unauthenticated env request d Hauth) in Hr.
      discriminate Hr. }
  exists a.
  destruct (truthy (opt_prop (data request) "userId")
            && negb (strict_eq_str (opt_prop (data request) "userId") (uid a)))
    eqn:Hcond.
  - apply andb_true_iff in Hcond as [Htruthy Hdiff].
    destruct (opt_prop (data request) "userId") as [| |b|n|t|l|ms] eqn:Hv;
      try (exfalso;
           refine (getUserProfile_nonstring_target env request a d Hauth _ _ r Hr);
           [now rewrite Hv | intros t'; rewrite Hv; discriminate]).
    assert (Hne : t ≠ "").
    { intros ->. discriminate Htruthy. }
    assert (Hother : t ≠ uid a).
    { intros ->. simpl in Hdiff. now rewrite String.eqb_refl in Hdiff. }
    destruct (fault env 0) eqn:F0.
    { rewrite (getUserProfile_check_fails env request a d Hauth t Hv Hne Hother
                 F0) in Hr. discriminate Hr. }
    destruct (is_admin_dec d a) as [Hadm | Hno].
    2:{ rewrite (getUserProfile_not_admin env request a d Hauth t Hv Hne Hother
                   F0 Hno) in Hr. discriminate Hr. }
    destruct (fault env 1) eqn:F1.
    { pose proof (getUserProfile_admin_read_fails env request a d Hauth t Hv
                    Hne Hother F0 Hadm F1) as Hf.
      rewrite Hr in Hf. discriminate Hf. }
    destruct (profile d t) as [p|] eqn:Hp.
    + rewrite (getUserProfile_admin_found env request a d Hauth t Hv Hne Hother
                 p F0 Hadm F1 Hp) in Hr.
      injection Hr as <-. exists t, p.
      split; [reflexivity|]. split; [exact Hp|]. split; [reflexivity|].
      right. now split.
    + rewrite (getUserProfile_admin_absent env request a d Hauth t Hv Hne
                 Hother F0 Hadm F1 Hp) in Hr. discriminate Hr.
  - destruct (fault env 0) eqn:F0.
    { pose proof (getUserProfile_own_read_fails env request a d Hauth Hcond F0)
        as Hf. rewrite Hr in Hf. discriminate Hf. }
    destruct (profile d (uid a)) as [p|] eqn:Hp.
    + rewrite (getUserProfile_own_found env request a d Hauth p Hcond F0 Hp)
        in Hr.
      injection Hr as <-. exists (uid a), p.
      split; [reflexivity|]. split; [exact Hp|]. split; [reflexivity|].
      now left.
    + rewrite (getUserProfile_own_absent env request a d Hauth Hcond F0 Hp)
        in Hr. discriminate Hr.
Qed.

Lemma getUserProfile_success_sound_witness :
  let request := Sample.as_user "a" (Some (obj [("userId", VStr "b")])) in
  let x := invoke getUserProfile Sample.env_up request Sample.db_admin in
  ∃ r, outcome x = Ok r ∧
  ∃ a id p,
    auth request = Some a ∧
    profile Sample.db_admin id = Some p ∧
    r = profile_view (VStr id) p ∧
    (id = uid a ∨
     (opt_prop (data request) "userId" = VStr id ∧ is_admin Sample.db_admin (uid a))).
Proof.
  intros request x.
  assert (Hx : ∃ r, outcome x = Ok r).
  { eexists. unfold x.
    assert (Hb : "b" ≠ "") by discriminate.
    assert (Hba : "b" ≠ "a") by discriminate.
    now rewrite (getUserProfile_admin_found Sample.env_up request
                   {| uid := "a" |} Sample.db_admin eq_refl "b" eq_refl Hb Hba
                   _ eq_refl db_admin_a_is_admin eq_refl eq_refl). }
  destruct Hx as [r Hr]. exists r. split; [exact Hr|].
  exact (getUserProfile_success_sound Sample.env_up request Sample.db_admin r Hr).
Defined.

End X_getUserProfile.

Section X_generateStreamToken.
Import Js Rt Handlers Spec Frame.

(** X11. Whatever the request and whatever the directory answers,
    generateStreamToken makes no store call and leaves the store as it
    was; it succeeds or fails with Unauthenticated or Internal, and a
    directory that fails to mint surfaces as Internal with the generic
    message, the cause being attached as detail only. *)
Theorem generateStreamToken_off_store
    (env : Env) (request : Request) (d : Db) :
  let x := invoke generateStreamToken env request d in
  store_after x = d ∧
  no_store (effects x) ∧
  ((∃ r, outcome x = Ok r) ∨ failure (outcome x) = Some Unauthenticated
   ∨ failure (outcome x) = Some Internal) ∧
  (is_Some (auth request) → fault env 0 = true →
   outcome x = Throw (HttpsError Internal "Unable to generate Stream token."
                        (Some (Error "collaborator failed")))).
Proof.
  intros x.
  destruct (invoke_confined off_store generateStreamToken env request d
              (generateStreamToken_confined env request)) as [Hs Hn].
  split; [exact Hs|]. split; [exact Hn|]. subst x.
  destruct (auth request) as [a|] eqn:Hauth.
  - destruct (fault env 0) eqn:F0.
    + rewrite (generateStreamToken_mint_fails env request a d Hauth F0).
      split; [now right; right | reflexivity].
    + rewrite (generateStreamToken_run env request a d Hauth F0).
      split; [left; eauto | discriminate].
  - rewrite (generateStreamToken_unauthenticated env request d Hauth).
    split; [now right; left | intros [a Ha]; discriminate Ha].
Qed.

Lemma generateStreamToken_off_store_witness :
  let request := Sample.as_user "a" None in
  let x := invoke generateStreamToken (Sample.env_fail_at 0) request Sample.db_alice in
  is_Some (auth request) ∧
  fault (Sample.env_fail_at 0) 0 = true ∧
  failure (outcome x) = Some Internal ∧
  store_after x = Sample.db_alice ∧
  no_store (effects x).
Proof.
  intros request x.
  destruct (generateStreamToken_off_store (Sample.env_fail_at 0) request
              Sample.db_alice) as (Hs & Hn & _ & Hf).
  assert (Ha : is_Some (auth request)) by (eexists; reflexivity).
  split; [exact Ha|]. split; [reflexivity|].
  split; [unfold x; now rewrite (Hf Ha eq_refl)|].
  split; [exact Hs | exact Hn].
Defined.

(** X12. The token is minted for the verified identity and for nothing
    else: two requests of the same caller get the same outcome and make
    the same calls whatever their payloads are, and the only directory
    call is the minting for the caller's identifier. *)
Theorem generateStreamToken_identity_only
    (env : Env) (request request' : Request) (a : Auth) (d : Db) :
  auth request = Some a →
  auth request' = Some a →
  let x := invoke generateStreamToken env request d in
  x = invoke generateStreamToken env request' d ∧
  (∀ e, e ∈ effects x → is_directory e = true → e = EMint (uid a)) ∧
  (∀ r, outcome x = Ok r → r !! "token" = Some (VStr (call_token env (uid a)))).
Proof.
  intros Hauth Hauth' x. subst x. destruct (fault env 0) eqn:F0.
  - rewrite !(generateStreamToken_mint_fails env _ a d) by assumption.
    split; [reflexivity|]. split; [|discriminate].
    intros e He Hd. unfold effects in He; cbn [snd] in He.
    repeat (apply elem_of_cons in He as [-> | He];
            [first [discriminate Hd | reflexivity]|]).
    now apply elem_of_nil in He.
  - rewrite !(generateStreamToken_run env _ a d) by assumption.
    split; [reflexivity|]. split.
    + intros e He Hd. unfold effects in He; cbn [snd] in He.
      repeat (apply elem_of_cons in He as [-> | He];
              [first [discriminate Hd | reflexivity]|]).
      now apply elem_of_nil in He.
    + intros r [= <-]. reflexivity.
Qed.

Lemma generateStreamToken_identity_only_witness :
  let request := Sample.as_user "a" None in
  let request' := Sample.as_user "a" (Some (obj [("userId", VStr "test")])) in
  let x := invoke generateStreamToken Sample.env_up request ∅ in
  let x' := invoke generateStreamToken Sample.env_up request' ∅ in
  auth request = Some {| uid := "a" |} ∧
  auth request' = Some {| uid := "a" |} ∧
  x = x' ∧
  ∃ r, outcome x' = Ok r ∧ r !! "token" = Some (VStr "jwt-for-a").
Proof.
  intros request request' x x'.
  destruct (generateStreamToken_identity_only Sample.env_up request request'
              {| uid := "a" |} ∅ eq_refl eq_refl) as (Heq & _ & Htok).
  split; [reflexivity|]. split; [reflexivity|]. split; [exact Heq|].
  unfold x'. rewrite <- Heq.
  assert (Hok : ∃ r, outcome (invoke generateStreamToken Sample.env_up request ∅)
                     = Ok r).
  { eexists.
    now rewrite (generateStreamToken_run Sample.env_up request
                   {| uid := "a" |} ∅ eq_refl eq_refl). }
  destruct Hok as [r Hr]. exists r. split; [exact Hr | exact (Htok r Hr)].
Defined.

End X_generateStreamToken.

Section SessionIds.
Import Js Rt Handlers Spec Frame.

Lemma dashless_pretty_N_go (x : N) (s : string) :
  dashless s → dashless (pretty_N_go x s).
Proof.
  revert s. induction (N.lt_wf_0 x) as [x _ IH]; intros s Hs.
  assert (x = 0 ∨ 0 < x)%N as [-> | Hpos] by lia.
  - now rewrite pretty_N_go_0.
  - rewrite pretty_N_go_step by assumption. apply IH.
    + now apply N.div_lt.
    + split; [|exact Hs]. unfold pretty_N_char.
      repeat case_match; discriminate.
Qed.

Lemma dashless_pretty (t : Z) : 0 ≤ t → dashless (pretty t).
Proof.
  destruct t as [|p|p]; intros Ht; [now repeat split | | lia].
  unfold pretty, pretty_Z, pretty, pretty_positive, pretty, pretty_N.
  case_decide; [discriminate|]. now apply dashless_pretty_N_go.
Qed.

Lemma dash_split (s1 s2 r1 r2 : string) :
  dashless s1 → dashless s2 →
  s1 +:+ "-" +:+ r1 = s2 +:+ "-" +:+ r2 → s1 = s2 ∧ r1 = r2.
Proof.
  revert s2. induction s1 as [|c s1 IH]; intros [|c' s2]; cbn.
  - intros _ _ H. injection H as H. cbn in H. now subst.
  - intros _ [Hc _] H. injection H as H _. now destruct Hc.
  - intros [Hc _] _ H. injection H as H _. now destruct Hc.
  - intros [_ H1] [_ H2] H. injection H as Hc Heq.
    destruct (IH s2 H1 H2 Heq) as [-> ->]. now subst.
Qed.

(** The identifier determines the reading of the clock and the suffix it
    is made of. *)
Lemma session_id_inj (t1 t2 : Z) (r1 r2 : string) :
  0 ≤ t1 → 0 ≤ t2 →
  session_id t1 r1 = session_id t2 r2 → t1 = t2 ∧ r1 = r2.
Proof.
  intros H1 H2 Heq. unfold session_id in Heq. cbn -[pretty] in Heq.
  injection Heq as Heq.
  destruct (dash_split _ _ _ _ (dashless_pretty t1 H1) (dashless_pretty t2 H2)
              Heq) as [Hp ->].
  split; [now apply (inj pretty) | reflexivity].
Qed.

End SessionIds.

Section X_createVideoSession.
Import Js Rt Handlers Spec Frame.

Lemma proper_participants_dec (request : Request) :
  proper_participants request ∨ ¬ proper_participants request.
Proof.
  unfold proper_participants.
  destruct (opt_prop (data request) "participants") as [| |b|n|s|[|p l]|ms];
    try (right; intros (l' & [=] & _); fail).
  - right. intros (l' & [= <-] & Hne). now apply Hne.
  - left. now exists (p :: l).
Qed.

Lemma participants_check (v : Val) :
  negb (truthy v) || negb (is_array v) || (length (elements v) <? 1)%nat = false
  → ∃ l, v = VArr l ∧ l ≠ [].
Proof.
  destruct v as [| |b|n|s|[|p l]|ms]; cbn;
    rewrite ?orb_true_r; try discriminate.
  intros _. now exists (p :: l).
Qed.

Lemma createVideoSession_invalid
    (env : Env) (request : Request) (a : Auth) (d : Db) :
  auth request = Some a →
  ¬ proper_participants request →
  invoke createVideoSession env request d = (invalid_participants, d, []).
Proof.
  intros Hauth Hno. unfold_run. rewrite Hauth.
  destruct (negb (truthy _) || _ || _) eqn:Hc; [reflexivity|].
  exfalso. apply Hno. now apply participants_check.
Qed.

(** X13. For an authenticated createSession call the failure is
    InvalidArgument exactly when the payload's participants are not an
    array with at least one element (no payload, no such field, a value
    of another type, an empty array); such a call makes no store call
    and has no effect at all. *)
Theorem createVideoSession_invalid_iff
    (env : Env) (request : Request) (a : Auth) (d : Db) :
  auth request = Some a →
  let x := invoke createVideoSession env request d in
  (failure (outcome x) = Some InvalidArgument ↔ ¬ proper_participants request) ∧
  (¬ proper_participants request → store_after x = d ∧ effects x = []).
Proof.
  intros Hauth x. subst x. split.
  - split.
    + intros Hfail (l & Hl & Hne).
      destruct (fault env 0) eqn:F0.
      * destruct (createVideoSession_write_fails env request a d l Hauth Hl
                    Hne F0) as [_ Hf]. congruence.
      * rewrite (createVideoSession_run env request a d l Hauth Hl Hne F0)
          in Hfail. discriminate Hfail.
    + intros Hno. now rewrite (createVideoSession_invalid env request a d).
  - intros Hno. now rewrite (createVideoSession_invalid env request a d).
Qed.

Lemma createVideoSession_invalid_iff_witness :
  let request := Sample.as_user "a" (Some (obj [("participants", VArr [])])) in
  let request' := Sample.as_user "a" (Some (obj [("participants", VStr "b,c")])) in
  let x := invoke createVideoSession Sample.env_up request Sample.db_alice in
  let x' := invoke createVideoSession Sample.env_up request' Sample.db_alice in
  ¬ proper_participants request ∧
  ¬ proper_participants request' ∧
  failure (outcome x) = Some InvalidArgument ∧
  failure (outcome x') = Some InvalidArgument ∧
  store_after x = Sample.db_alice ∧ effects x = [].
Proof.
  intros request request' x x'.
  assert (H1 : ¬ proper_participants request).
  { intros (l & Hl & Hne). injection Hl as <-. now apply Hne. }
  assert (H2 : ¬ proper_participants request').
  { intros (l & Hl & _). discriminate Hl. }
  destruct (createVideoSession_invalid_iff Sample.env_up request
              {| uid := "a" |} Sample.db_alice eq_refl) as [Hiff Hrest].
  destruct (createVideoSession_invalid_iff Sample.env_up request'
              {| uid := "a" |} Sample.db_alice eq_refl) as [Hiff' _].
  split; [exact H1|]. split; [exact H2|].
  split; [exact (proj2 Hiff H1)|]. split; [exact (proj2 Hiff' H2)|].
  exact (Hrest H1).
Defined.



End X_createVideoSession.

Section X_createVideoSession_more.
Import Js Rt Handlers Spec Frame.

Lemma createVideoSession_write_fails_run
    (env : Env) (request : Request) (a : Auth) (d : Db) (l : list string) :
  auth request = Some a →
  opt_prop (data request) "participants" = VArr l →
  l ≠ [] →
  fault env 0 = true →
  outcome (invoke createVideoSession env request d)
  = Throw (HttpsError Internal "Failed to create video session."
             (Some (Error "collaborator failed"))).
Proof.
  intros Hauth Hl Hne F0. unfold_run. rewrite Hauth, Hl.
  destruct l as [|p0 l0]; [now contradiction Hne|]. step. now rewrite F0.
Qed.

(** X15. A createSession call that does not succeed leaves the store as
    it was; it always fails with an HttpsError, whose kind is
    Unauthenticated, InvalidArgument or Internal, and a store that
    refuses the write surfaces as Internal with the generic message. *)
Theorem createVideoSession_failure_leaves_store
    (env : Env) (request : Request) (d : Db) :
  let x := invoke createVideoSession env request d in
  ((∀ r, outcome x ≠ Ok r) → store_after x = d) ∧
  ((∃ r, outcome x = Ok r) ∨ failure (outcome x) = Some Unauthenticated
   ∨ failure (outcome x) = Some InvalidArgument
   ∨ failure (outcome x) = Some Internal) ∧
  (is_Some (auth request) → proper_participants request → fault env 0 = true →
   outcome x = Throw (HttpsError Internal "Failed to create video session."
                        (Some (Error "collaborator failed")))).
Proof.
  intros x. subst x.
  destruct (auth request) as [a|] eqn:Hauth.
  2:{ rewrite (createVideoSession_unauthenticated env request d Hauth).
      split; [reflexivity|]. split; [now right; left|].
      intros [a Ha]. discriminate Ha. }
  destruct (proper_participants_dec request) as [(l & Hl & Hne) | Hno].
  2:{ rewrite (createVideoSession_invalid env request a d Hauth Hno).
      split; [reflexivity|]. split; [now right; right; left|].
      intros _ Hp. now destruct Hno. }
  destruct (fault env 0) eqn:F0.
  - destruct (createVideoSession_write_fails env request a d l Hauth Hl Hne F0)
      as [Hs Hf].
    split; [intros _; exact Hs|]. split; [now right; right; right|].
    intros _ _ _.
    exact (createVideoSession_write_fails_run env request a d l Hauth Hl Hne F0).
  - pose proof (createVideoSession_run env request a d l Hauth Hl Hne F0) as Hrun.
    cbv zeta in Hrun. rewrite Hrun.
    split; [intros Hnone; now destruct (Hnone _ eq_refl)|].
    split; [left; eauto | discriminate].
Qed.

Lemma createVideoSession_failure_leaves_store_witness :
  let x := invoke createVideoSession (Sample.env_fail_at 0)
             Sample2.session_request Sample.db_alice in
  is_Some (auth Sample2.session_request) ∧
  proper_participants Sample2.session_request ∧
  fault (Sample.env_fail_at 0) 0 = true ∧
  failure (outcome x) = Some Internal ∧
  store_after x = Sample.db_alice.
Proof.
  intros x.
  assert (Ha : is_Some (auth Sample2.session_request)) by (eexists; reflexivity).
  assert (Hp : proper_participants Sample2.session_request).
  { exists ["b"; "c"]. split; [reflexivity | discriminate]. }
  destruct (createVideoSession_failure_leaves_store (Sample.env_fail_at 0)
              Sample2.session_request Sample.db_alice) as (Hs & _ & Hf).
  pose proof (Hf Ha Hp eq_refl) as Ho. fold x in Ho, Hs.
  split; [exact Ha|]. split; [exact Hp|]. split; [reflexivity|].
  split; [now rewrite Ho|].
  apply Hs. intros r Hr. rewrite Ho in Hr. discriminate Hr.
Defined.

(** X16. Two createSession calls in a row with the same request (store
    answering, clocks not before 1970): when the clock readings or the
    random suffixes of the two calls differ, the two identifiers differ
    and both sessions are in the store afterwards, the first one as
    the first call stored it; when both coincide the identifiers are the
    same and the second call has replaced the document of the first. *)
Theorem createVideoSession_twice
    (env1 env2 : Env) (request : Request) (a : Auth) (d : Db) (l : list string) :
  auth request = Some a →
  opt_prop (data request) "participants" = VArr l →
  l ≠ [] →
  fault env1 0 = false → fault env2 0 = false →
  0 ≤ now env1 0 → 0 ≤ now env2 0 →
  let x1 := invoke createVideoSession env1 request d in
  let x2 := invoke createVideoSession env2 request (store_after x1) in
  let sid1 := session_id (now env1 0) (random_suffix env1 0) in
  let sid2 := session_id (now env2 0) (random_suffix env2 0) in
  (∃ r1 r2, outcome x1 = Ok r1 ∧ outcome x2 = Ok r2 ∧
            r1 !! "sessionId" = Some (VStr sid1) ∧
            r2 !! "sessionId" = Some (VStr sid2)) ∧
  (now env1 0 ≠ now env2 0 ∨ random_suffix env1 0 ≠ random_suffix env2 0 →
   sid1 ≠ sid2 ∧
   store_after x2 !! ("videoSessions", sid1)
     = store_after x1 !! ("videoSessions", sid1) ∧
   is_Some (store_after x2 !! ("videoSessions", sid1)) ∧
   is_Some (store_after x2 !! ("videoSessions", sid2))) ∧
  (now env1 0 = now env2 0 → random_suffix env1 0 = random_suffix env2 0 →
   sid1 = sid2 ∧
   store_after x2 !! ("videoSessions", sid1)
     = Some (resolve (server_time env2 0)
               (session_data (uid a) (add_creator l (uid a))))).
Proof.
  intros Hauth Hl Hne F1 F2 T1 T2 x1 x2 sid1 sid2. subst x2 x1.
  pose proof (createVideoSession_run env1 request a d l Hauth Hl Hne F1) as R1.
  cbv zeta in R1. fold sid1 in R1.
  set (first := resolve (server_time env1 0)
                  (session_data (uid a) (add_creator l (uid a)))) in *.
  assert (S1 : store_after (invoke createVideoSession env1 request d)
               = <[("videoSessions", sid1) := first]> d) by now rewrite R1.
  rewrite S1.
  pose proof (createVideoSession_run env2 request a
                (<[("videoSessions", sid1) := first]> d)
                l Hauth Hl Hne F2) as R2.
  cbv zeta in R2. fold sid2 in R2. rewrite R1, R2.
  unfold outcome, store_after; cbn [fst snd].
  split; [eexists _, _; repeat split; reflexivity|]. split.
  - intros Hdiff.
    assert (Hsid : sid1 ≠ sid2).
    { intros Heq. apply session_id_inj in Heq as [Ht Hr]; [|assumption..].
      destruct Hdiff; contradiction. }
    split; [exact Hsid|].
    assert (Hk : ("videoSessions", sid2) ≠ ("videoSessions", sid1))
      by (intros Heq; apply Hsid; exact (eq_sym (f_equal snd Heq))).
    rewrite (lookup_insert_ne _ _ _ _ Hk), !lookup_insert_eq.
    split; [reflexivity|]. split; eexists; reflexivity.
  - intros Ht Hr. assert (Hsid : sid1 = sid2) by (unfold sid1, sid2; congruence).
    split; [exact Hsid|]. rewrite Hsid. apply lookup_insert_eq.
Qed.

Lemma createVideoSession_twice_witness :
  let x1 := invoke createVideoSession Sample.env_up Sample2.session_request ∅ in
  let x2 := invoke createVideoSession Sample2.env_later Sample2.session_request
              (store_after x1) in
  now Sample.env_up 0 ≠ now Sample2.env_later 0 ∧
  "session-1730620800123-k3x9q2a" ≠ "session-1730620801123-p0w4z7m" ∧
  is_Some (store_after x2 !! ("videoSessions", "session-1730620800123-k3x9q2a")) ∧
  is_Some (store_after x2 !! ("videoSessions", "session-1730620801123-p0w4z7m")).
Proof.
  intros x1 x2.
  assert (Hne : ["b"; "c"] ≠ []) by discriminate.
  assert (Hclock : now Sample.env_up 0 ≠ now Sample2.env_later 0) by discriminate.
  assert (T1 : 0 ≤ now Sample.env_up 0) by discriminate.
  assert (T2 : 0 ≤ now Sample2.env_later 0) by discriminate.
  destruct (createVideoSession_twice Sample.env_up Sample2.env_later
              Sample2.session_request {| uid := "a" |} ∅ ["b"; "c"]
              eq_refl eq_refl Hne eq_refl eq_refl T1 T2) as (_ & Hdiff & _).
  destruct (Hdiff (or_introl Hclock)) as (Hsid & _ & H1 & H2).
  split; [exact Hclock|]. split; [exact Hsid|]. split; [exact H1 | exact H2].
Defined.

(** X17. The participants that a createSession call returns are stable:
    a second call of the same caller with the returned participants as
    its input returns them unchanged. *)
Theorem createVideoSession_participants_stable
    (env1 env2 : Env) (req1 req2 : Request) (a : Auth) (d1 d2 : Db)
    (l final : list string) (r1 : Obj) :
  auth req1 = Some a → auth req2 = Some a →
  opt_prop (data req1) "participants" = VArr l →
  outcome (invoke createVideoSession env1 req1 d1) = Ok r1 →
  r1 !! "participants" = Some (VArr final) →
  opt_prop (data req2) "participants" = VArr final →
  fault env2 0 = false →
  ∃ r2, outcome (invoke createVideoSession env2 req2 d2) = Ok r2 ∧
        r2 !! "participants" = Some (VArr final).
Proof.
  intros Ha1 Ha2 Hl Hr1 Hp1 Hl2 F2.
  assert (Hne : l ≠ []).
  { intros ->. assert (Hno : ¬ proper_participants req1).
    { intros (l' & Hl' & Hne'). rewrite Hl in Hl'. injection Hl' as <-.
      now apply Hne'. }
    rewrite (createVideoSession_invalid env1 req1 a d1 Ha1 Hno) in Hr1.
    discriminate Hr1. }
  assert (Hfinal : final = add_creator l (uid a)).
  { destruct (fault env1 0) eqn:F1.
    - rewrite (createVideoSession_write_fails_run env1 req1 a d1 l Ha1 Hl Hne F1)
        in Hr1. discriminate Hr1.
    - pose proof (createVideoSession_run env1 req1 a d1 l Ha1 Hl Hne F1) as R1.
      cbv zeta in R1. rewrite R1 in Hr1. injection Hr1 as <-.
      change (Some (VArr (add_creator l (uid a))) = Some (VArr final)) in Hp1.
      congruence. }
  assert (Hin : uid a ∈ final).
  { rewrite Hfinal. apply add_creator_elem. now right. }
  assert (Hne2 : final ≠ []).
  { intros Hnil. rewrite Hnil in Hin. now apply elem_of_nil in Hin. }
  pose proof (createVideoSession_run env2 req2 a d2 final Ha2 Hl2 Hne2 F2) as R2.
  cbv zeta in R2. rewrite R2, (add_creator_present final (uid a) Hin).
  eexists. split; reflexivity.
Qed.

Lemma createVideoSession_participants_stable_witness :
  let req2 := Sample.as_user "a"
                (Some (obj [("participants", VArr ["b"; "c"; "a"])])) in
  ∃ r1 r2,
    outcome (invoke createVideoSession Sample.env_up Sample2.session_request ∅)
      = Ok r1 ∧
    r1 !! "participants" = Some (VArr ["b"; "c"; "a"]) ∧
    outcome (invoke createVideoSession Sample2.env_later req2 ∅) = Ok r2 ∧
    r2 !! "participants" = Some (VArr ["b"; "c"; "a"]).
Proof.
  intros req2.
  assert (Hne : ["b"; "c"] ≠ []) by discriminate.
  pose proof (createVideoSession_run Sample.env_up Sample2.session_request
                {| uid := "a" |} ∅ ["b"; "c"] eq_refl eq_refl Hne eq_refl) as R1.
  cbv zeta in R1.
  assert (Hr1 : ∃ r1, outcome (invoke createVideoSession Sample.env_up
                                 Sample2.session_request ∅) = Ok r1
                      ∧ r1 !! "participants" = Some (VArr ["b"; "c"; "a"])).
  { rewrite R1. eexists. split; reflexivity. }
  destruct Hr1 as (r1 & Hr1 & Hp1).
  destruct (createVideoSession_participants_stable Sample.env_up
              Sample2.env_later Sample2.session_request req2 {| uid := "a" |}
              ∅ ∅ ["b"; "c"] ["b"; "c"; "a"] r1 eq_refl eq_refl eq_refl Hr1 Hp1
              eq_refl eq_refl) as (r2 & Hr2 & Hp2).
  exists r1, r2. split; [exact Hr1|]. split; [exact Hp1|].
  split; [exact Hr2 | exact Hp2].
Defined.

End X_createVideoSession_more.

(** ** Start-up *)

Section X_startup.
Import Js Rt Handlers Spec Startup.

Lemma getenv_truthy (p : Process) (k : string) :
  truthy (or_else (getenv p k) (VStr "")) = true ↔
  ∃ v, environ p !! k = Some v ∧ v ≠ "".
Proof.
  unfold getenv, or_else. destruct (environ p !! k) as [v|]; simpl.
  - destruct (String.eqb v "") eqn:E; simpl.
    + apply String.eqb_eq in E. split; [discriminate|].
      intros (w & [= <-] & Hw). contradiction.
    + rewrite E. apply String.eqb_neq in E. split; [|reflexivity].
      intros _. now exists v.
  - split; [discriminate | intros (w & [=] & _)].
Qed.

Lemma getenv_value (p : Process) (k v : string) :
  environ p !! k = Some v → v ≠ "" →
  to_string (or_else (getenv p k) (VStr "")) = v.
Proof.
  intros Hk Hv. unfold getenv, or_else. rewrite Hk. simpl.
  now rewrite (proj2 (String.eqb_neq v "") Hv).
Qed.

Lemma environ_ensure_app (p : Process) : environ (ensure_app p) = environ p.
Proof. unfold ensure_app. now destruct (length (apps p) =? 0)%nat. Qed.

(** X18. The module loads exactly when STREAM_API_KEY and
    STREAM_API_SECRET both have a non-empty value, taken from the
    process environment or, for a variable the environment does not
    have, from the .env file (a variable that is set but empty is not
    replaced); otherwise loading throws.  The client gets these two
    values, and the Firebase app is initialised only when none is. *)
Theorem load_needs_credentials (p : Process) :
  let vars := environ p ∪ dotenv_file p in
  (∀ c, (load p).1 = Ok c ↔
        ∃ k s, vars !! "STREAM_API_KEY" = Some k ∧ k ≠ "" ∧
               vars !! "STREAM_API_SECRET" = Some s ∧ s ≠ "" ∧
               c = {| apiKey := k; apiSecret := s |}) ∧
  ((∀ c, (load p).1 ≠ Ok c) →
   (load p).1 = Throw (Error "Missing Stream API key/secret")) ∧
  (∀ k v, environ p !! k = Some v → vars !! k = Some v) ∧
  (apps p = [] → apps (load p).2 = ["[DEFAULT]"]) ∧
  (apps p ≠ [] → apps (load p).2 = apps p).
Proof.
  intros vars.
  set (q := ensure_app (dotenv_config p)).
  assert (Hq : environ q = vars) by apply environ_ensure_app.
  assert (Hload : load p =
            if negb (truthy (or_else (getenv q "STREAM_API_KEY") (VStr "")))
               || negb (truthy (or_else (getenv q "STREAM_API_SECRET") (VStr "")))
            then (Throw (Error "Missing Stream API key/secret"), q)
            else (Ok {| apiKey := to_string (or_else (getenv q "STREAM_API_KEY") (VStr ""));
                        apiSecret := to_string (or_else (getenv q "STREAM_API_SECRET") (VStr "")) |}, q))
    by reflexivity.
  pose proof (getenv_truthy q "STREAM_API_KEY") as Hk.
  pose proof (getenv_truthy q "STREAM_API_SECRET") as Hs.
  rewrite Hq in Hk, Hs.
  assert (Happs : apps (load p).2 = apps q).
  { rewrite Hload. now destruct (negb _ || _). }
  split; [|split; [|split; [|split]]].
  - intros c. rewrite Hload.
    destruct (truthy (or_else (getenv q "STREAM_API_KEY") (VStr ""))) eqn:Ek;
      destruct (truthy (or_else (getenv q "STREAM_API_SECRET") (VStr ""))) eqn:Es;
      cbn [negb orb fst].
    + destruct (proj1 Hk eq_refl) as (k & Hk1 & Hk2).
      destruct (proj1 Hs eq_refl) as (s & Hs1 & Hs2).
      rewrite <- Hq in Hk1, Hs1.
      rewrite (getenv_value q _ k Hk1 Hk2), (getenv_value q _ s Hs1 Hs2).
      rewrite Hq in Hk1, Hs1. split.
      * intros [= <-]. now exists k, s.
      * intros (k' & s' & Hk' & _ & Hs' & _ & ->). congruence.
    + split; [discriminate|]. intros (k & s & _ & _ & Hs' & Hne & _).
      assert (false = true) by (apply Hs; eauto). discriminate.
    + split; [discriminate|]. intros (k & s & Hk' & Hne & _).
      assert (false = true) by (apply Hk; eauto). discriminate.
    + split; [discriminate|]. intros (k & s & Hk' & Hne & _).
      assert (false = true) by (apply Hk; eauto). discriminate.
  - intros Hno. rewrite Hload in *.
    destruct (negb _ || _); [reflexivity | now destruct (Hno _ eq_refl)].
  - intros k v Hv. now apply lookup_union_Some_l.
  - intros Hnil. rewrite Happs. unfold q, ensure_app, dotenv_config; cbn.
    now rewrite Hnil.
  - intros Hne. rewrite Happs. unfold q, ensure_app, dotenv_config; cbn.
    destruct (apps p); [contradiction | reflexivity].
Qed.

Lemma load_needs_credentials_witness :
  (load Sample2.configured).1 = Ok {| apiKey := "key-1"; apiSecret := "s3cret" |} ∧
  apps (load Sample2.configured).2 = ["[DEFAULT]"] ∧
  environ Sample2.empty_secret !! "STREAM_API_SECRET" = Some "" ∧
  dotenv_file Sample2.empty_secret !! "STREAM_API_SECRET" = Some "from-file" ∧
  (load Sample2.empty_secret).1 = Throw (Error "Missing Stream API key/secret") ∧
  apps (load Sample2.empty_secret).2 = ["[DEFAULT]"].
Proof.
  destruct (load_needs_credentials Sample2.configured)
    as (Hok & _ & _ & Hinit & _).
  destruct (load_needs_credentials Sample2.empty_secret)
    as (Hok' & Hthrow & Henv & _ & Hkeep).
  split.
  { apply Hok. exists "key-1", "s3cret".
    split; [reflexivity|]. split; [discriminate|].
    split; [reflexivity|]. split; [discriminate | reflexivity]. }
  split; [exact (Hinit eq_refl)|].
  split; [reflexivity|]. split; [reflexivity|].
  split.
  - apply Hthrow. intros c Hc. apply Hok' in Hc.
    destruct Hc as (k & s & _ & _ & Hs & Hne & _).
    rewrite (Henv "STREAM_API_SECRET" "" eq_refl) in Hs.
    injection Hs as <-. now apply Hne.
  - apply Hkeep. discriminate.
Defined.

End X_startup.

Section C6.
Import Js Rt Handlers Spec.

(** C6 (as the code behaves). A createUser call without a payload
    ([request.data] null or undefined, as for a callable invoked with no
    argument) has no uid, no display name and no email; the handler
    reads [user.uid] before its first check and outside any [try], so the
    call ends in a TypeError and not in InvalidArgument.  The store is
    neither read nor written. *)
Theorem createUser_missing_payload_type_error :
  let request := Sample.anonymous None in
  let x := invoke createUser Sample.env_up request Sample.db_alice in
  missing_or_blank (opt_prop (data request) "uid") ∧
  missing_or_blank (opt_prop (data request) "displayName") ∧
  lacks_at (opt_prop (data request) "email") ∧
  outcome x = Throw (Error "TypeError: cannot read properties of undefined") ∧
  failure (outcome x) ≠ Some InvalidArgument ∧
  store_after x = Sample.db_alice ∧
  no_store (effects x).
Proof.
  intros request x.
  assert (Hx : x = (Throw (Error "TypeError: cannot read properties of undefined"),
                    Sample.db_alice, entry_logs)).
  { apply createUser_no_payload. reflexivity. }
  split; [now left|]. split; [now left|].
  split; [intros s Hs; discriminate Hs|].
  rewrite Hx. split; [reflexivity|]. split; [discriminate|].
  split; [reflexivity | repeat constructor].
Qed.

End C6.
